(** * Shelley's Ranch: the frame loop of sketch.js, embedded and verified

    A shallow embedding of [src/sketch.js].  JavaScript numbers are IEEE 754
    binary64 values, so every number of the program is a primitive [float]
    and every arithmetic operation or comparison is the corresponding
    binary64 operation.  The p5.js host (frame rate, keyboard, canvas size,
    random numbers) is an explicit [Host] record that each entry point
    receives; calls of [random] are numbered, and the number of calls made so
    far is threaded through the code by a small state monad. *)

From Stdlib Require Import ZArith Floats Bool List String Lia.
From stdpp Require Import base list.
Import ListNotations.

Local Open Scope float_scope.

(** ** JavaScript numbers *)

Module JS.

(** [a > b] on numbers: false as soon as one side is NaN. *)
Definition gtb (a b : float) : bool := b <? a.

(** [isNaN(x)]. *)
Definition isNaN (x : float) : bool := negb (x =? x).

(** [isFinite(x)]: neither NaN nor an infinity. *)
Definition isFinite (x : float) : bool := abs x <? infinity.

(** [!x] on a number: true for [+0], [-0] and NaN. *)
Definition not (x : float) : bool := (x =? 0) || isNaN x.

(** [x || 0] on a number: [0] for [+0], [-0] and NaN, else [x]. *)
Definition orZero (x : float) : float := if not x then 0 else x.

(** [Math.floor(x)] as an integer; [None] for NaN and the infinities,
    whose floor is not an integer. *)
Definition floor (x : float) : option Z :=
  match Prim2SF x with
  | S754_zero _ => Some 0%Z
  | S754_finite s m e =>
      Some (Z.shiftl (if s then Z.neg m else Z.pos m) e)
  | S754_infinity _ | S754_nan => None
  end.

(** [arr[floor(x) % arr.length]]: the remainder has the sign of the
    dividend, a negative or NaN index reads [undefined]. *)
Definition atFloorMod {A : Type} (arr : list A) (x : float) : option A :=
  match floor x with
  | None => None
  | Some n =>
      match arr with
      | [] => None
      | _ :: _ =>
          let r := Z.rem n (Z.of_nat (length arr)) in
          if (r <? 0)%Z then None else nth_error arr (Z.to_nat r)
      end
  end.

End JS.

Infix ">?" := JS.gtb (at level 70, no associativity) : float_scope.

(** The IEEE class of a number, as the specification speaks of it. *)
Definition is_zero (x : float) : bool :=
  match classify x with PZero | NZero => true | _ => false end.

Definition is_infinite (x : float) : bool :=
  match classify x with PInf | NInf => true | _ => false end.

Definition is_nan (x : float) : bool :=
  match classify x with NaN => true | _ => false end.

(** ** p5.Vector, restricted to the two components the game uses

    A vector object holds the numbers [x] and [y]; [z] is left at [0] by
    [createVector(x, y)], no operation of the game makes it anything else,
    and [x*x + y*y + 0*0] is [x*x + y*y].  The operations are those of
    p5.js 1.x: the constructor keeps [x || 0] and [y || 0], [add] and [sub]
    read [v.x || 0] and [v.y || 0] of their argument, and [mult(n)] leaves
    the vector as it is when [n] is not a finite number. *)

Record Vector : Set := vec { x : float; y : float }.

(** [createVector(x, y)], that is [new p5.Vector(x, y)]. *)
Definition createVector (a b : float) : Vector := vec (JS.orZero a) (JS.orZero b).

Module P5Vector.

(** [v.copy()] is [new p5.Vector(v.x, v.y, v.z)]. *)
Definition copy (v : Vector) : Vector := createVector (x v) (y v).

Definition add (v w : Vector) : Vector :=
  vec (x v + JS.orZero (x w)) (y v + JS.orZero (y w)).

Definition sub (v w : Vector) : Vector :=
  vec (x v - JS.orZero (x w)) (y v - JS.orZero (y w)).

Definition mult (v : Vector) (n : float) : Vector :=
  if JS.isFinite n then vec (x v * n) (y v * n) else v.

Definition mag (v : Vector) : float :=
  sqrt (x v * x v + y v * y v + 0 * 0).

(** [this.dist(v)] is [v.copy().sub(this).mag()]. *)
Definition dist (this v : Vector) : float := mag (sub (copy v) this).

End P5Vector.

(** ** The host: what p5.js supplies *)

Inductive ArrowKey : Set := LEFT_ARROW | RIGHT_ARROW | UP_ARROW | DOWN_ARROW.

Inductive Direction : Set := Left | Right | Up | Down.

Record Host : Type := {
  frameRate : float;                         (* frameRate() *)
  keyIsDown : ArrowKey -> bool;
  width : float;
  height : float;
  windowWidth : float;
  windowHeight : float;
  random : nat -> float -> float -> float;   (* k-th call, random(lo, hi) *)
  randomChoice : nat -> Direction            (* k-th call, random([l, r, u, d]) *)
}.

(** Code that draws random numbers: a state monad over the number of calls
    of [random] made so far. *)
Definition Rand (A : Type) : Type := nat -> A * nat.

Definition ret {A : Type} (a : A) : Rand A := fun k => (a, k).

Definition bind {A B : Type} (m : Rand A) (f : A -> Rand B) : Rand B :=
  fun k => let (a, k') := m k in f a k'.

Notation "'let*' x ':=' m 'in' f" := (bind m (fun x => f))
  (at level 10, x name, m at level 100, f at level 200, only parsing).

(** [arr.forEach(x => f(x))] on objects that [f] mutates. *)
Fixpoint forEach {A : Type} (f : A -> Rand A) (l : list A) : Rand (list A) :=
  match l with
  | [] => ret []
  | a :: l' =>
      let* a' := f a in
      let* l'' := forEach f l' in
      ret (a' :: l'')
  end.

(** ** MathHelper *)

Module MathHelper.

Definition positionInBounds (position boundsPosition boundsSize : Vector) : bool :=
  (x position >? x boundsPosition - x boundsSize / 2) &&
  (x position <? x boundsPosition + x boundsSize / 2) &&
  (y position >? y boundsPosition - y boundsSize / 2) &&
  (y position <? y boundsPosition + y boundsSize / 2).

Definition VECTOR_ZERO : Vector := createVector 0 0.
Definition VECTOR_ONE : Vector := createVector 1 1.
Definition VECTOR_LEFT : Vector := createVector (-1) 0.
Definition VECTOR_RIGHT : Vector := createVector 1 0.
Definition VECTOR_UP : Vector := createVector 0 (-1).
Definition VECTOR_DOWN : Vector := createVector 0 1.

End MathHelper.

(** ** Images

    The handles returned by [loadImage]: [title.png], [fence.png],
    [cow_<dir>_<i>.png] and [person_<dir>_<i>.png].  [None] stands for
    [undefined]. *)

Inductive Image : Set :=
| TitleImage
| FenceImage
| CowImage (d : Direction) (i : nat)
| PersonImage (d : Direction) (i : nat).

(** [Array.from(Array(n).keys()).map(index => loadImage(...))]. *)
Definition loadFrames (load : nat -> Image) (n : nat) : list Image :=
  map load (seq 0 n).

(** ** Sprite *)

Module Sprite.

(** The fields of a sprite object. *)
Record t : Set := make {
  _image : option Image;
  _size : Vector;
  _position : Vector;
  _velocity : Vector
}.

(** The constructor stores copies of the vectors it is given. *)
Definition new (image : option Image) (size position velocity : Vector) : t :=
  make image (P5Vector.copy size) (P5Vector.copy position) (P5Vector.copy velocity).

(** The getters return copies, the setters store copies. *)
Definition getVelocity (s : t) : Vector := P5Vector.copy (_velocity s).
Definition getPosition (s : t) : Vector := P5Vector.copy (_position s).
Definition getSize (s : t) : Vector := P5Vector.copy (_size s).

Definition setVelocity (velocity : Vector) (s : t) : t :=
  make (_image s) (_size s) (_position s) (P5Vector.copy velocity).

Definition setPosition (position : Vector) (s : t) : t :=
  make (_image s) (_size s) (P5Vector.copy position) (_velocity s).

Definition setSize (size : Vector) (s : t) : t :=
  make (_image s) (P5Vector.copy size) (_position s) (_velocity s).

(** [this._image = image] and [this._velocity = velocity]: assignments of
    the field itself, as the subclasses make them. *)
Definition setImage (image : option Image) (s : t) : t :=
  make image (_size s) (_position s) (_velocity s).

Definition assignVelocity (velocity : Vector) (s : t) : t :=
  make (_image s) (_size s) (_position s) velocity.

(** [this._position.add(this.getVelocity().mult(dt))]: the position object
    is updated in place. *)
Definition tick (dt : float) (s : t) : t :=
  make (_image s) (_size s)
       (P5Vector.add (_position s) (P5Vector.mult (getVelocity s) dt))
       (_velocity s).

End Sprite.

(** ** AnimatingSprite *)

Module AnimatingSprite.

Record t : Set := make {
  sprite : Sprite.t;
  _imageLeftArray : list Image;
  _imageRightArray : list Image;
  _imageUpArray : list Image;
  _imageDownArray : list Image;
  _distancePerFrame : float;
  _elapsedTime : float;
  _lastImage : option Image
}.

Definition new (imageLeftArray imageRightArray imageUpArray imageDownArray : list Image)
    (size position velocity : Vector) (distancePerFrame : float) : t :=
  make (Sprite.new (nth_error imageDownArray 0) (P5Vector.copy size)
          (P5Vector.copy position) (P5Vector.copy velocity))
       imageLeftArray imageRightArray imageUpArray imageDownArray
       distancePerFrame 0 (nth_error imageDownArray 0).

Definition withSprite (f : Sprite.t -> Sprite.t) (a : t) : t :=
  make (f (sprite a)) (_imageLeftArray a) (_imageRightArray a) (_imageUpArray a)
       (_imageDownArray a) (_distancePerFrame a) (_elapsedTime a) (_lastImage a).

Definition _velocity (a : t) : Vector := Sprite._velocity (sprite a).
Definition _position (a : t) : Vector := Sprite._position (sprite a).
Definition getVelocity (a : t) : Vector := Sprite.getVelocity (sprite a).
Definition getPosition (a : t) : Vector := Sprite.getPosition (sprite a).
Definition setVelocity (velocity : Vector) : t -> t := withSprite (Sprite.setVelocity velocity).
Definition setPosition (position : Vector) : t -> t := withSprite (Sprite.setPosition position).

(** [this._velocity = velocity]. *)
Definition assignVelocity (velocity : Vector) : t -> t :=
  withSprite (Sprite.assignVelocity velocity).

Definition setElapsedTime (e : float) (a : t) : t :=
  make (sprite a) (_imageLeftArray a) (_imageRightArray a) (_imageUpArray a)
       (_imageDownArray a) (_distancePerFrame a) e (_lastImage a).

Definition setLastImage (i : option Image) (a : t) : t :=
  make (sprite a) (_imageLeftArray a) (_imageRightArray a) (_imageUpArray a)
       (_imageDownArray a) (_distancePerFrame a) (_elapsedTime a) i.

(** The sequence for the direction of motion, x before y; [None] when the
    sprite stands still (or a component is NaN). *)
Definition currentImageArray (a : t) : option (list Image) :=
  if x (_velocity a) <? 0 then Some (_imageLeftArray a)
  else if x (_velocity a) >? 0 then Some (_imageRightArray a)
  else if y (_velocity a) <? 0 then Some (_imageUpArray a)
  else if y (_velocity a) >? 0 then Some (_imageDownArray a)
  else None.

(** [_getImage()]: updates [_lastImage] when moving; the image returned is
    the [_lastImage] of the result. *)
Definition _getImage (a : t) : t :=
  match currentImageArray a with
  | Some arr =>
      let frameCount :=
        _elapsedTime a * P5Vector.mag (_velocity a) / _distancePerFrame a in
      setLastImage (JS.atFloorMod arr frameCount) a
  | None => a
  end.

Definition tick (dt : float) (a : t) : t :=
  let a1 := setElapsedTime (_elapsedTime a + dt) a in
  let a2 := _getImage a1 in
  let a3 := withSprite (Sprite.setImage (_lastImage a2)) a2 in
  withSprite (Sprite.tick dt) a3.

End AnimatingSprite.

(** ** Random numbers of the host *)

Definition p5random (h : Host) (lo hi : float) : Rand float :=
  fun k => (random h k lo hi, S k).

Definition p5randomChoice (h : Host) : Rand Direction :=
  fun k => (randomChoice h k, S k).

Definition directionVector (d : Direction) : Vector :=
  match d with
  | Left => MathHelper.VECTOR_LEFT
  | Right => MathHelper.VECTOR_RIGHT
  | Up => MathHelper.VECTOR_UP
  | Down => MathHelper.VECTOR_DOWN
  end.

(** ** Cow *)

Module Cow.

(* Cow.preload *)
Definition _imageLeftArray : list Image := loadFrames (CowImage Left) 4.
Definition _imageRightArray : list Image := loadFrames (CowImage Right) 4.
Definition _imageUpArray : list Image := loadFrames (CowImage Up) 4.
Definition _imageDownArray : list Image := loadFrames (CowImage Down) 4.
Definition _size : Vector := P5Vector.mult MathHelper.VECTOR_ONE 128.
Definition _distanceFromFrame : float := 2.5.
Definition _targetPadding : float := 40.
Definition _normalSpeed : float := 20.
Definition _targetSpeed : float := 40.

Record t : Set := make {
  anim : AnimatingSprite.t;
  _targetPosition : option Vector
}.

Definition new (position : Vector) : t :=
  make (AnimatingSprite.new _imageLeftArray _imageRightArray _imageUpArray
          _imageDownArray (P5Vector.copy _size) (P5Vector.copy position)
          MathHelper.VECTOR_ZERO _distanceFromFrame)
       None.

Definition withAnim (f : AnimatingSprite.t -> AnimatingSprite.t) (c : t) : t :=
  make (f (anim c)) (_targetPosition c).

Definition _velocity (c : t) : Vector := AnimatingSprite._velocity (anim c).
Definition _position (c : t) : Vector := AnimatingSprite._position (anim c).
Definition getVelocity (c : t) : Vector := AnimatingSprite.getVelocity (anim c).
Definition getPosition (c : t) : Vector := AnimatingSprite.getPosition (anim c).
Definition setVelocity (velocity : Vector) : t -> t :=
  withAnim (AnimatingSprite.setVelocity velocity).

(** [this._velocity = velocity]. *)
Definition assignVelocity (velocity : Vector) : t -> t :=
  withAnim (AnimatingSprite.assignVelocity velocity).

Definition setTargetPosition (position : Vector) (c : t) : t :=
  make (anim c) (Some position).

Definition unsetTargetPosition (c : t) : t := make (anim c) None.

Definition _tickTarget (target : Vector) (c : t) : t :=
  if x (_position c) >? x target + 40 then
    assignVelocity (P5Vector.mult MathHelper.VECTOR_LEFT _targetSpeed) c
  else if x (_position c) <? x target - _targetPadding then
    assignVelocity (P5Vector.mult MathHelper.VECTOR_RIGHT _targetSpeed) c
  else if y (_position c) >? y target + _targetPadding then
    assignVelocity (P5Vector.mult MathHelper.VECTOR_UP _targetSpeed) c
  else if y (_position c) <? y target - _targetPadding then
    assignVelocity (P5Vector.mult MathHelper.VECTOR_DOWN _targetSpeed) c
  else
    assignVelocity MathHelper.VECTOR_ZERO c.

Definition _tickNormal (h : Host) (dt : float) (c : t) : Rand t :=
  (* 0x1.999999999999ap-4 is the double that the literal 0.1 denotes *)
  let probability := 0x1.999999999999ap-4 * dt in
  let* roll := p5random h 0 1 in
  if roll <? probability then
    if P5Vector.mag (_velocity c) >? 0 then
      ret (assignVelocity MathHelper.VECTOR_ZERO c)
    else
      let* d := p5randomChoice h in
      ret (assignVelocity (P5Vector.mult (directionVector d) _normalSpeed) c)
  else ret c.

Definition tick (h : Host) (dt : float) (c : t) : Rand t :=
  let* c' :=
    match _targetPosition c with
    | Some target => ret (_tickTarget target c)
    | None => _tickNormal h dt c
    end in
  ret (withAnim (AnimatingSprite.tick dt) c').

End Cow.

(** ** Person *)

Module Person.

(* Person.preload *)
Definition _imageLeftArray : list Image := loadFrames (PersonImage Left) 3.
Definition _imageRightArray : list Image := loadFrames (PersonImage Right) 3.
Definition _imageUpArray : list Image := loadFrames (PersonImage Up) 3.
Definition _imageDownArray : list Image := loadFrames (PersonImage Down) 3.
Definition _size : Vector := createVector 32 32.
Definition _distanceFromFrame : float := 2.5.
Definition _speed : float := 30.

Definition t : Set := AnimatingSprite.t.

Definition new (position : Vector) : t :=
  AnimatingSprite.new _imageLeftArray _imageRightArray _imageUpArray
    _imageDownArray (P5Vector.copy _size) (P5Vector.copy position)
    MathHelper.VECTOR_ZERO _distanceFromFrame.

(** [this._velocity = direction.copy().mult(Person._speed)]. *)
Definition setControlledDirection (direction : Vector) (p : t) : t :=
  AnimatingSprite.assignVelocity (P5Vector.mult (P5Vector.copy direction) _speed) p.

End Person.

(** ** Fence *)

Module Fence.

(* Fence.preload *)
Definition _size : Vector := P5Vector.mult MathHelper.VECTOR_ONE 400.
Definition _edgeWidth : float := 100.
Definition _openingSize : Vector := createVector 100 _edgeWidth.

Definition t : Set := Sprite.t.

Definition new (position : Vector) : t :=
  Sprite.new (Some FenceImage) (P5Vector.copy _size) (P5Vector.copy position)
    MathHelper.VECTOR_ZERO.

Definition outerFenceBoundSize (f : t) : Vector :=
  P5Vector.add (Sprite.getSize f) (P5Vector.mult MathHelper.VECTOR_ONE (_edgeWidth / 2)).

Definition innerFenceBoundSize (f : t) : Vector :=
  P5Vector.sub (Sprite.getSize f) (P5Vector.mult MathHelper.VECTOR_ONE (_edgeWidth / 2)).

Definition openingPosition (f : t) : Vector :=
  P5Vector.sub (Sprite.getPosition f) (createVector 0 (y (Sprite._size f) / 2)).

Definition isOverlapping (f : t) (position : Vector) : bool :=
  let isInOuterFenceBound :=
    MathHelper.positionInBounds position (Sprite._position f) (outerFenceBoundSize f) in
  let isInInnerFenceBound :=
    MathHelper.positionInBounds position (Sprite._position f) (innerFenceBoundSize f) in
  let isInOpening :=
    MathHelper.positionInBounds position (openingPosition f) _openingSize in
  isInOuterFenceBound && negb isInInnerFenceBound && negb isInOpening.

End Fence.

(** ** What [draw] sends to the canvas *)

Inductive Color : Set := color (r g b : float) (alpha : option float).

Inductive DrawCall : Set :=
| push
| background (c : Color)
| translate (dx dy : float)
| textSize (s : float)
| textFont (name : string)
| textAlignCenter
| fill (c : Color)
| text (str : string) (px py w h : float)
| image (img : option Image) (px py w h : float)
| pop.

Definition drawSprite (s : Sprite.t) : DrawCall :=
  image (Sprite._image s)
        (x (Sprite._position s) - x (Sprite._size s) / 2)
        (y (Sprite._position s) - y (Sprite._size s) / 2)
        (x (Sprite._size s))
        (y (Sprite._size s)).

(** ** GameManager *)

Module GameManager.

(* GameManager.preload *)
Definition _titlePosition (h : Host) : Vector :=
  createVector 0 (- windowHeight h / 2 + 60).
Definition _titleSize : Vector := createVector 400 60.
Definition preloadDescriptionPosition (h : Host) : Vector :=
  createVector (-250) (windowHeight h / 2 - 110).
Definition _descriptionSize : Vector := createVector 480 80.
Definition _descriptionColor : Color := color 255 255 255 (Some 220).
Definition _descriptionInitial : string :=
  "Grazing time is over! Can you bring the cows back home? " ++
  "Use the arrow keys to move around and press the space bar near a cow " ++
  "to start leading it or let it go.".
Definition _descriptionInitialFontSize : float := 18.
Definition _descriptionSuccess : string := "Yay, you've brought all the cows home!".
Definition _descriptionSuccessFontSize : float := 24.
Definition _frameRate : float := 30.
Definition _edgeWidth : float := 80.
Definition _backgroundColor : Color := color 0 200 0 None.
Definition _cowRange : float := 50.

(** The fields of a game manager once [setup] has run.  [_allSprites] is
    the array [[_title, _fence, _person, ..._cows]] of the same objects and
    is not stored apart; [_followingCow], a reference to one of the cows of
    [_cows], is the index of that cow.  [_descriptionPosition] is the static
    [GameManager._descriptionPosition]: [preload] computes it once, no later
    frame changes it. *)
Record t : Set := make {
  _descriptionText : string;
  _descriptionFontSize : float;
  _person : Person.t;
  _fence : Fence.t;
  _cows : list Cow.t;
  _title : Sprite.t;
  _followingCow : option nat;
  _descriptionPosition : Vector
}.

Definition setDescription (txt : string) (fontSize : float) (g : t) : t :=
  make txt fontSize (_person g) (_fence g) (_cows g) (_title g) (_followingCow g)
       (_descriptionPosition g).

Definition setPerson (p : Person.t) (g : t) : t :=
  make (_descriptionText g) (_descriptionFontSize g) p (_fence g) (_cows g)
       (_title g) (_followingCow g) (_descriptionPosition g).

Definition setFence (f : Fence.t) (g : t) : t :=
  make (_descriptionText g) (_descriptionFontSize g) (_person g) f (_cows g)
       (_title g) (_followingCow g) (_descriptionPosition g).

Definition setCows (cs : list Cow.t) (g : t) : t :=
  make (_descriptionText g) (_descriptionFontSize g) (_person g) (_fence g) cs
       (_title g) (_followingCow g) (_descriptionPosition g).

Definition setTitle (s : Sprite.t) (g : t) : t :=
  make (_descriptionText g) (_descriptionFontSize g) (_person g) (_fence g) (_cows g)
       s (_followingCow g) (_descriptionPosition g).

Definition setFollowingCow (i : option nat) (g : t) : t :=
  make (_descriptionText g) (_descriptionFontSize g) (_person g) (_fence g) (_cows g)
       (_title g) i (_descriptionPosition g).

(** The arrow key read by the chain of [keyIsDown] tests. *)
Definition controlledDirection (h : Host) : Vector :=
  if keyIsDown h LEFT_ARROW then MathHelper.VECTOR_LEFT
  else if keyIsDown h RIGHT_ARROW then MathHelper.VECTOR_RIGHT
  else if keyIsDown h UP_ARROW then MathHelper.VECTOR_UP
  else if keyIsDown h DOWN_ARROW then MathHelper.VECTOR_DOWN
  else MathHelper.VECTOR_ZERO.

(** The guard of [tick]: [!dt || !isFinite(dt) || isNaN(dt)]. *)
Definition skipsFrame (dt : float) : bool :=
  JS.not dt || negb (JS.isFinite dt) || JS.isNaN dt.

Definition gameBounds (h : Host) : Vector :=
  P5Vector.sub (createVector (width h) (height h))
               (P5Vector.mult MathHelper.VECTOR_ONE _edgeWidth).

(** Invert the velocity and move once more. *)
Definition turnAround (h : Host) (dt : float) (cow : Cow.t) : Rand Cow.t :=
  Cow.tick h dt (Cow.setVelocity (P5Vector.mult (Cow.getVelocity cow) (-1)) cow).

(** The first test of [this._cows.forEach(cow => ...)]: the fence. *)
Definition fenceResponse (h : Host) (dt : float) (fence : Fence.t) (cow : Cow.t)
    : Rand Cow.t :=
  if Fence.isOverlapping fence (Cow._position cow)
  then turnAround h dt cow else ret cow.

(** The second test: the game window less its edge. *)
Definition boundsResponse (h : Host) (dt : float) (cow : Cow.t) : Rand Cow.t :=
  if negb (MathHelper.positionInBounds
             (Cow.getPosition cow) MathHelper.VECTOR_ZERO (gameBounds h))
  then turnAround h dt cow else ret cow.

(** The body of the loop: both tests of one cow, one after the other. *)
Definition collide (h : Host) (dt : float) (fence : Fence.t) (cow : Cow.t) : Rand Cow.t :=
  let* cow1 := fenceResponse h dt fence cow in
  boundsResponse h dt cow1.

(** The person stopped by the fence. *)
Definition stopPerson (dt : float) (fence : Fence.t) (p : Person.t) : Person.t :=
  if Fence.isOverlapping fence (AnimatingSprite.getPosition p) then
    AnimatingSprite.setVelocity MathHelper.VECTOR_ZERO
      (AnimatingSprite.setPosition
         (P5Vector.sub (AnimatingSprite.getPosition p)
                       (P5Vector.mult (AnimatingSprite.getVelocity p) dt)) p)
  else p.

Definition cowsOutsideFence (fence : Fence.t) (cows : list Cow.t) : list Cow.t :=
  List.filter
    (fun cow => negb (MathHelper.positionInBounds
                        (Cow.getPosition cow) (Sprite.getPosition fence)
                        (Sprite.getSize fence)))
    cows.

(** The person steered by the keyboard, before anything moves. *)
Definition steeredPerson (h : Host) (g : t) : Person.t :=
  Person.setControlledDirection (controlledDirection h) (_person g).

(** The cows once the followed one has been given the person's position
    as its target. *)
Definition targetedCows (h : Host) (g : t) : list Cow.t :=
  match _followingCow g with
  | Some i =>
      alter (Cow.setTargetPosition (AnimatingSprite.getPosition (steeredPerson h g)))
            i (_cows g)
  | None => _cows g
  end.

(** [tick] from the test of [dt] on, for a frame that is not skipped. *)
Definition update (h : Host) (dt : float) (g : t) : Rand t :=
  let person1 := steeredPerson h g in
  let cows1 := targetedCows h g in
  (* this._allSprites.forEach(sprite => sprite.tick({ dt: dt })) *)
  let title2 := Sprite.tick dt (_title g) in
  let fence2 := Sprite.tick dt (_fence g) in
  let person2 := AnimatingSprite.tick dt person1 in
  let* cows2 := forEach (Cow.tick h dt) cows1 in
  let* cows3 := forEach (collide h dt fence2) cows2 in
  let person3 := stopPerson dt fence2 person2 in
  let g' :=
    make (_descriptionText g) (_descriptionFontSize g) person3 fence2 cows3 title2
         (_followingCow g) (_descriptionPosition g) in
  if (length (cowsOutsideFence fence2 cows3) =? 0)%nat
  then ret (setDescription _descriptionSuccess _descriptionSuccessFontSize g')
  else ret g'.

(** [tick()] declares no parameter: the time step is always read from the
    host's frame rate. *)
Definition tick (h : Host) (g : t) : Rand t :=
  let dt := 1 / frameRate h in
  if skipsFrame dt then ret g else update h dt g.

Definition draw (h : Host) (g : t) : list DrawCall :=
  [ push;
    background _backgroundColor;
    translate (width h / 2) (height h / 2);
    textSize (_descriptionFontSize g);
    textFont "Georgia";
    textAlignCenter;
    fill _descriptionColor;
    text (_descriptionText g)
         (x (_descriptionPosition g)) (y (_descriptionPosition g))
         (x _descriptionSize) (y _descriptionSize) ]
  ++ map drawSprite
       (_title g :: _fence g :: AnimatingSprite.sprite (_person g)
          :: map (fun c => AnimatingSprite.sprite (Cow.anim c)) (_cows g))
  ++ [ pop ].

(** Index of the first element of [cows.filter(p)]. *)
Fixpoint firstIndex (p : Cow.t -> bool) (cows : list Cow.t) : option nat :=
  match cows with
  | [] => None
  | c :: cs => if p c then Some 0%nat else option_map S (firstIndex p cs)
  end.

Definition inRange (person : Person.t) (cow : Cow.t) : bool :=
  P5Vector.dist (AnimatingSprite.getPosition person) (Cow.getPosition cow) <? _cowRange.

Definition keyTyped (key : string) (g : t) : t :=
  if String.eqb key " " then
    match _followingCow g with
    | Some i =>
        setFollowingCow None (setCows (alter Cow.unsetTargetPosition i (_cows g)) g)
    | None =>
        match firstIndex (inRange (_person g)) (_cows g) with
        | Some i => setFollowingCow (Some i) g
        | None => g
        end
    end
  else g.

(** [for (let i = 0; i < n; i++) { body }]. *)
Fixpoint times (n : nat) (body : t -> Rand t) (g : t) : Rand t :=
  match n with
  | O => ret g
  | S n' => let* g' := body g in times n' body g'
  end.

(** One cow of [Array.from({ length: 3 }, () => new Cow(...))]; the canvas
    has just been created with the size of the window. *)
Definition createCow (h : Host) : Rand Cow.t :=
  let width := windowWidth h in
  let height := windowHeight h in
  let* px := p5random h (- width / 2 + _edgeWidth) (width / 2 - _edgeWidth) in
  let* py := p5random h (- height / 2 + _edgeWidth) (height / 2 - _edgeWidth) in
  ret (Cow.new (createVector px py)).

Fixpoint createCows (h : Host) (n : nat) : Rand (list Cow.t) :=
  match n with
  | O => ret []
  | S n' =>
      let* c := createCow h in
      let* cs := createCows h n' in
      ret (c :: cs)
  end.

(** [preload], the constructor and [setup()] up to the warm-up loop, on the
    host [h]: the statics of [preload] are computed from the same window. *)
Definition create (h : Host) : Rand t :=
  let person := Person.new MathHelper.VECTOR_ZERO in
  let fence := Fence.new MathHelper.VECTOR_ZERO in
  let* cows := createCows h 3 in
  let title :=
    Sprite.new (Some TitleImage) (P5Vector.copy _titleSize)
      (P5Vector.copy (_titlePosition h)) MathHelper.VECTOR_ZERO in
  ret (make _descriptionInitial _descriptionInitialFontSize person fence cows title None
            (preloadDescriptionPosition h)).

(** [setup()].  The loop calls [this.tick({ dt: 1.0 / 30 })]; [tick] takes
    no parameter, so the argument is dropped. *)
Definition setup (h : Host) : Rand t :=
  let* g := create h in
  times 10 (tick h) g.

End GameManager.

(** ** The sketch: the p5.js bindings and the runs of the game *)

(** The game manager together with the number of random draws made. *)
Definition World : Type := GameManager.t * nat.

Inductive Event : Type :=
| Tick (h : Host)
| Draw (h : Host)
| KeyTyped (key : string).

(** One call into the game manager.  [draw] only emits draw calls. *)
Definition step (e : Event) (w : World) : World :=
  match e with
  | Tick h => GameManager.tick h (fst w) (snd w)
  | Draw h => w
  | KeyTyped key => (GameManager.keyTyped key (fst w), snd w)
  end.

Definition run (es : list Event) (w : World) : World :=
  fold_left (fun w e => step e w) es w.

(** The worlds a game can be in: [setup], then any calls. *)
Inductive reachable : World -> Prop :=
| reachable_setup (h : Host) (k : nat) : reachable (GameManager.setup h k)
| reachable_step (e : Event) (w : World) : reachable w -> reachable (step e w).

(** ** Vocabulary of the specification *)

(** A time step the frame loop accepts: finite and not zero. *)
Definition validDt (dt : float) : bool :=
  negb (is_zero dt) && negb (is_infinite dt) && negb (is_nan dt).

(** IEEE "less than" as a proposition. *)
Definition Flt (a b : float) : Prop := (a ?= b) = FLt.

(** The edges of the rectangle centred at [c] with full extents [s]. *)
Definition leftEdge (c s : Vector) : float := x c - x s / 2.
Definition rightEdge (c s : Vector) : float := x c + x s / 2.
Definition topEdge (c s : Vector) : float := y c - y s / 2.
Definition bottomEdge (c s : Vector) : float := y c + y s / 2.

Definition strictlyInside (p c s : Vector) : Prop :=
  Flt (leftEdge c s) (x p) /\ Flt (x p) (rightEdge c s) /\
  Flt (topEdge c s) (y p) /\ Flt (y p) (bottomEdge c s).

Definition strictlyOutside (p c s : Vector) : Prop :=
  Flt (x p) (leftEdge c s) \/ Flt (rightEdge c s) (x p) \/
  Flt (y p) (topEdge c s) \/ Flt (bottomEdge c s) (y p).

(** A coordinate that lies on one of the four edges. *)
Definition onEdge (p c s : Vector) : Prop :=
  (x p =? leftEdge c s) = true \/ (x p =? rightEdge c s) = true \/
  (y p =? topEdge c s) = true \/ (y p =? bottomEdge c s) = true.

(** At most one component is not zero. *)
Definition axisAligned (v : Vector) : Prop :=
  (x v =? 0) = true \/ (y v =? 0) = true.


(** The description shows the success text at the success size. *)
Definition showsSuccess (g : GameManager.t) : Prop :=
  GameManager._descriptionText g = GameManager._descriptionSuccess /\
  GameManager._descriptionFontSize g = GameManager._descriptionSuccessFontSize.

(** The rectangle of the win test: the fence's position and size. *)
Definition insideFence (fence : Fence.t) (cow : Cow.t) : Prop :=
  strictlyInside (Cow.getPosition cow) (Sprite.getPosition fence) (Sprite.getSize fence).

(** The velocities a cow is ever given: zero, a cardinal direction at normal
    or at target speed, and what [mult(-1)] makes of these. *)
Definition assignedVelocities : list Vector :=
  MathHelper.VECTOR_ZERO
    :: map (fun d => P5Vector.mult (directionVector d) Cow._normalSpeed) [Left; Right; Up; Down]
    ++ map (fun d => P5Vector.mult (directionVector d) Cow._targetSpeed) [Left; Right; Up; Down].

Definition cowVelocities : list Vector :=
  assignedVelocities ++ map (fun v => P5Vector.mult v (-1)) assignedVelocities.

(** ** Concrete hosts and games *)

Module Examples.

Definition sameKey (a b : ArrowKey) : bool :=
  match a, b with
  | LEFT_ARROW, LEFT_ARROW | RIGHT_ARROW, RIGHT_ARROW
  | UP_ARROW, UP_ARROW | DOWN_ARROW, DOWN_ARROW => true
  | _, _ => false
  end.

(** A 1000 x 800 window, a frame rate reading [fr], at most one arrow key
    held, and a random source that always answers the fraction [frac] of
    the way from [lo] to [hi]. *)
Definition hostAt (frac fr : float) (held : option ArrowKey) : Host := {|
  frameRate := fr;
  keyIsDown := fun key =>
    match held with Some key' => sameKey key key' | None => false end;
  width := 1000;
  height := 800;
  windowWidth := 1000;
  windowHeight := 800;
  random := fun _ lo hi => lo + (hi - lo) * frac;
  randomChoice := fun _ => Left
|}.

(** The cows are born at (315, 240), outside the fence. *)
Definition host : float -> option ArrowKey -> Host := hostAt 0.875.

(** The cows are born at the origin, inside the fence. *)
Definition homeHost : float -> option ArrowKey -> Host := hostAt 0.5.

(** Before the first frame p5.js reports a frame rate of [0]. *)
Definition firstFrame : Host := host 0 None.

(** The game as [setup] leaves it in that window. *)
Definition start : World := GameManager.setup firstFrame 0%nat.

(** The fence of the game, at the origin. *)
Definition homeFence : Fence.t := Fence.new MathHelper.VECTOR_ZERO.

(** A cow that stands at [position] and moves with [velocity]. *)
Definition cowAt (position velocity : Vector) : Cow.t :=
  Cow.setVelocity velocity (Cow.new position).

(** A cow inside the fence that walks left towards its west side. *)
Definition leftWalker : Cow.t :=
  cowAt (createVector (-174.5) 0)
        (P5Vector.mult MathHelper.VECTOR_LEFT Cow._normalSpeed).


(** A window 500 wide: the east side of the fence reaches beyond the
    bounds in which the cows are kept. *)
Definition narrowHost : Host := {|
  frameRate := 30;
  keyIsDown := fun _ => false;
  width := 500;
  height := 800;
  windowWidth := 500;
  windowHeight := 800;
  random := fun _ lo hi => lo + (hi - lo) * 0.875;
  randomChoice := fun _ => Left
|}.

(** A game won at its first frame: all cows are inside the fence. *)
Definition won : World :=
  step (Tick (homeHost 30 None)) (GameManager.setup (homeHost 0 None) 0%nat).

(** The player then takes the first cow along and leads it up through the
    opening, in three frames of 4 seconds. *)
Definition leadOut : list Event :=
  [ KeyTyped " ";
    Tick (homeHost 0.25 (Some UP_ARROW)); Draw (homeHost 0.25 (Some UP_ARROW));
    Tick (homeHost 0.25 (Some UP_ARROW)); Draw (homeHost 0.25 (Some UP_ARROW));
    Tick (homeHost 0.25 (Some UP_ARROW)); Draw (homeHost 0.25 (Some UP_ARROW)) ].

(** The world after one frame of 4 seconds with the left arrow held. *)
Definition afterLongFrame : World :=
  step (Tick (host 0.25 (Some LEFT_ARROW))) start.

(** A window in which [random] places every cow at ([cx], 0); the rolls of
    the cows answer 0.875, but for the draws numbered in [low], which
    answer 0. *)
Definition placedHost (cx : float) (low : nat -> bool) (fr : float) : Host := {|
  frameRate := fr;
  keyIsDown := fun _ => false;
  width := 1000;
  height := 800;
  windowWidth := 1000;
  windowHeight := 800;
  random := fun k lo _ =>
    if lo <? -400 then cx else if lo <? 0 then 0 else if low k then 0 else 0.875;
  randomChoice := fun _ => Left
|}.

(** The cows are born at (190, 0), in the east side of the fence, and
    stand there. *)
Definition wallHost : float -> Host := placedHost 190 (fun _ => false).

Definition inTheWall : World := GameManager.setup (wallHost 0) 0%nat.



(** The window of [homeHost] once it has been resized to 1000 x 600. *)
Definition resizedHost : Host := {|
  frameRate := 30;
  keyIsDown := fun _ => false;
  width := 1000;
  height := 600;
  windowWidth := 1000;
  windowHeight := 600;
  random := fun _ lo hi => lo + (hi - lo) * 0.5;
  randomChoice := fun _ => Left
|}.

End Examples.

(** ** Names for the stages of a frame *)

(** The cows after the movement of all sprites, and after the collision
    tests. *)
Definition movedCows (h : Host) (dt : float) (g : GameManager.t) : Rand (list Cow.t) :=
  forEach (Cow.tick h dt) (GameManager.targetedCows h g).

Definition collidedCows (h : Host) (dt : float) (g : GameManager.t) : Rand (list Cow.t) :=
  fun k =>
    forEach (GameManager.collide h dt (Sprite.tick dt (GameManager._fence g)))
            (fst (movedCows h dt g k)) (snd (movedCows h dt g k)).

(** The person after the movement of all sprites. *)
Definition movedPerson (h : Host) (dt : float) (g : GameManager.t) : Person.t :=
  AnimatingSprite.tick dt (GameManager.steeredPerson h g).


(** Every cow moves with one of the velocities of [cowVelocities]. *)
Definition tameCows (g : GameManager.t) : Prop :=
  Forall (fun c => In (Cow._velocity c) cowVelocities) (GameManager._cows g).

(** [setup] as the specification words it: the warm-up advances the game
    ten times by the nominal time step 1/30. *)
Definition setupAtNominalDt (h : Host) : Rand GameManager.t :=
  let* g := GameManager.create h in
  GameManager.times 10 (GameManager.update h (1 / 30)) g.

(** ** The p5.js bindings of the sketch *)

Module Sketch.

(** [setup()]: the game manager built by [preload] is set up. *)
Definition setup (h : Host) : Rand GameManager.t := GameManager.setup h.

(** [draw()]: one frame, [gameManager.tick()] and then [gameManager.draw()];
    the draw calls of the frame come with the new world. *)
Definition draw (h : Host) (w : World) : World * list DrawCall :=
  let w' := GameManager.tick h (fst w) (snd w) in
  (w', GameManager.draw h (fst w')).

(** [keyTyped()]. *)
Definition keyTyped (key : string) (w : World) : World :=
  (GameManager.keyTyped key (fst w), snd w).

End Sketch.

(** ** More vocabulary *)

(** The shape of the herd: three cows, the followed cow is one of them, and
    a cow that has a target is the followed cow. *)
Definition herded (g : GameManager.t) : Prop :=
  length (GameManager._cows g) = 3%nat /\
  (forall i, GameManager._followingCow g = Some i -> (i < 3)%nat) /\
  (forall j c, GameManager._cows g !! j = Some c ->
     Cow._targetPosition c <> None -> GameManager._followingCow g = Some j).

(** The velocities the person is ever given. *)
Definition personVelocities : list Vector :=
  [ createVector (-30) 0; createVector 30 0; createVector 0 (-30); createVector 0 30;
    createVector 0 0 ].


(** * Properties *)

(** ** Facts about binary64 numbers *)

Section FloatFacts.

Lemma Prim2SF_zero : Prim2SF 0 = S754_zero false.
Proof. reflexivity. Qed.

Lemma Prim2SF_infinity : Prim2SF infinity = S754_infinity false.
Proof. reflexivity. Qed.

Lemma SFcompare_refl_finite s m e :
  SFcompare (S754_finite s m e) (S754_finite s m e) = Some Eq.
Proof.
  simpl. change (Pos.compare_cont Eq m m) with (Pos.compare m m).
  destruct s; rewrite Z.compare_refl, Pos.compare_refl; reflexivity.
Qed.

(** Comparing a number with itself never answers "less". *)
Lemma SFltb_irrefl a : SFltb a a = false.
Proof.
  destruct a as [s|s| |s m e]; unfold SFltb.
  - reflexivity.
  - destruct s; reflexivity.
  - reflexivity.
  - rewrite SFcompare_refl_finite. reflexivity.
Qed.

Lemma ltb_irrefl a : (a <? a) = false.
Proof. rewrite FloatAxioms.ltb_spec. apply SFltb_irrefl. Qed.

Lemma SFcompare_Eq_sym a b : SFcompare a b = Some Eq -> SFcompare b a = Some Eq.
Proof.
  destruct a as [s|s| |s m e], b as [s'|s'| |s' m' e']; simpl;
    try discriminate; try reflexivity;
    try (destruct s; discriminate); try (destruct s'; discriminate).
  - destruct s, s'; (reflexivity || discriminate).
  - change (Pos.compare_cont Eq m m') with (Pos.compare m m').
    change (Pos.compare_cont Eq m' m) with (Pos.compare m' m).
    destruct s, s'; try discriminate;
      destruct (Z.compare_spec e e') as [->| |]; try discriminate;
      destruct (Pos.compare_spec m m') as [->| |]; try discriminate;
      intros _; rewrite Z.compare_refl, Pos.compare_refl; reflexivity.
Qed.

(** Numbers that are equal are not ordered, either way. *)
Lemma eqb_not_ltb (a b : float) : (a =? b) = true -> (a <? b) = false /\ (b <? a) = false.
Proof.
  rewrite FloatAxioms.eqb_spec, !FloatAxioms.ltb_spec. unfold SFeqb, SFltb. intros H.
  destruct (SFcompare (Prim2SF a) (Prim2SF b)) as [[]|] eqn:E; try discriminate.
  apply SFcompare_Eq_sym in E. rewrite E. split; reflexivity.
Qed.

Lemma ltb_Flt a b : (a <? b) = true <-> Flt a b.
Proof.
  unfold Flt. rewrite FloatAxioms.ltb_spec, FloatAxioms.compare_spec. unfold SFltb.
  destruct (SFcompare (Prim2SF a) (Prim2SF b)) as [[]|]; simpl;
    split; congruence.
Qed.

Lemma gtb_Flt a b : (a >? b) = true <-> Flt b a.
Proof. apply ltb_Flt. Qed.

(** The guard of [tick] fires exactly on the zeros, the infinities and
    NaN. *)
Lemma skipsFrame_class dt :
  GameManager.skipsFrame dt = is_zero dt || is_infinite dt || is_nan dt.
Proof.
  unfold GameManager.skipsFrame, JS.not, JS.isNaN, JS.isFinite,
    is_zero, is_infinite, is_nan.
  rewrite !FloatAxioms.eqb_spec, FloatAxioms.ltb_spec, abs_spec, classify_spec, Prim2SF_zero, Prim2SF_infinity.
  unfold SF64classify, SFclassify, SFeqb, SFltb.
  destruct (Prim2SF dt) as [s|s| |s m e].
  - destruct s; reflexivity.
  - destruct s; reflexivity.
  - reflexivity.
  - rewrite SFcompare_refl_finite.
    destruct s; destruct (Z.eqb (Z.pos (digits2_pos m)) prec); reflexivity.
Qed.

Lemma skipsFrame_valid dt : GameManager.skipsFrame dt = negb (validDt dt).
Proof.
  rewrite skipsFrame_class. unfold validDt.
  destruct (is_zero dt), (is_infinite dt), (is_nan dt); reflexivity.
Qed.




End FloatFacts.

(** ** MathHelper.positionInBounds *)

Lemma positionInBounds_iff (p c s : Vector) :
  MathHelper.positionInBounds p c s = true <-> strictlyInside p c s.
Proof.
  unfold MathHelper.positionInBounds, strictlyInside,
    leftEdge, rightEdge, topEdge, bottomEdge.
  rewrite !andb_true_iff, !gtb_Flt, !ltb_Flt. tauto.
Qed.

Lemma positionInBounds_not (p c s : Vector) :
  MathHelper.positionInBounds p c s = false <-> ~ strictlyInside p c s.
Proof.
  rewrite <- positionInBounds_iff.
  destruct (MathHelper.positionInBounds p c s); split; congruence.
Qed.

(** C9: [positionInBounds] answers true exactly for the positions strictly
    inside the rectangle centred at [boundsPosition] with full extents
    [boundsSize], and false for every position one of whose coordinates
    equals an edge [boundsPosition +/- boundsSize / 2]. *)
Theorem positionInBounds_strict (p c s : Vector) :
  (MathHelper.positionInBounds p c s = true <-> strictlyInside p c s) /\
  (onEdge p c s -> MathHelper.positionInBounds p c s = false).
Proof.
  split; [apply positionInBounds_iff|].
  unfold onEdge, MathHelper.positionInBounds, JS.gtb,
    leftEdge, rightEdge, topEdge, bottomEdge.
  intros [H|[H|[H|H]]]; apply eqb_not_ltb in H as [H1 H2];
    rewrite ?H1, ?H2, ?andb_false_r; reflexivity.
Qed.

Lemma positionInBounds_strict_witness :
  onEdge (createVector 5 0) MathHelper.VECTOR_ZERO (createVector 10 10) /\
  MathHelper.positionInBounds
    (createVector 5 0) MathHelper.VECTOR_ZERO (createVector 10 10) = false.
Proof.
  assert (E : onEdge (createVector 5 0) MathHelper.VECTOR_ZERO (createVector 10 10))
    by (right; left; reflexivity).
  split; [exact E|].
  exact (proj2 (positionInBounds_strict _ _ _) E).
Defined.

(** ** Fence.isOverlapping *)

(** The bounds of the game's fence: 450 and 350 wide, with a 100 x 100
    opening centred 200 above the fence position. *)
Lemma homeFence_bounds :
  Fence.outerFenceBoundSize Examples.homeFence = createVector 450 450 /\
  Fence.innerFenceBoundSize Examples.homeFence = createVector 350 350 /\
  Fence.openingPosition Examples.homeFence = createVector 0 (-200) /\
  Fence._openingSize = createVector 100 100.
Proof. repeat split; reflexivity. Qed.

(** C4, as the code has it: [isOverlapping] answers true exactly for the
    positions strictly inside the outer bound (fence size plus half the edge
    width, centred at the fence position) that are not strictly inside the
    inner bound (fence size minus half the edge width, same centre) and not
    strictly inside the opening rectangle (centred half the fence height
    above the fence position); a position on the edge of the inner bound
    counts as overlapping.  For every position strictly inside the opening
    it answers false. *)
Theorem isOverlapping_ring (f : Fence.t) (p : Vector) :
  (Fence.isOverlapping f p = true <->
     strictlyInside p (Sprite._position f) (Fence.outerFenceBoundSize f) /\
     ~ strictlyInside p (Sprite._position f) (Fence.innerFenceBoundSize f) /\
     ~ strictlyInside p (Fence.openingPosition f) Fence._openingSize) /\
  (strictlyInside p (Fence.openingPosition f) Fence._openingSize ->
     Fence.isOverlapping f p = false).
Proof.
  unfold Fence.isOverlapping. split.
  - rewrite !andb_true_iff, !negb_true_iff, positionInBounds_iff,
      !positionInBounds_not. tauto.
  - intros H. apply positionInBounds_iff in H. rewrite H.
    apply andb_false_r.
Qed.

Lemma isOverlapping_ring_witness :
  strictlyInside (createVector 0 (-190))
    (Fence.openingPosition Examples.homeFence) Fence._openingSize /\
  Fence.isOverlapping Examples.homeFence (createVector 0 (-190)) = false.
Proof.
  assert (E : strictlyInside (createVector 0 (-190))
                (Fence.openingPosition Examples.homeFence) Fence._openingSize)
    by (repeat split; reflexivity).
  split; [exact E|].
  exact (proj2 (isOverlapping_ring _ _) E).
Defined.

(** C4, as the claim words it, fails on the edge of the inner bound: the
    position (175, 0) is not strictly outside the inner bound of the game's
    fence, and [isOverlapping] answers true there. *)
Lemma isOverlapping_inner_edge :
  ~ (Fence.isOverlapping Examples.homeFence (createVector 175 0) = true <->
       strictlyInside (createVector 175 0)
         (Sprite._position Examples.homeFence)
         (Fence.outerFenceBoundSize Examples.homeFence) /\
       strictlyOutside (createVector 175 0)
         (Sprite._position Examples.homeFence)
         (Fence.innerFenceBoundSize Examples.homeFence) /\
       ~ strictlyInside (createVector 175 0)
           (Fence.openingPosition Examples.homeFence) Fence._openingSize).
Proof.
  intros [H _].
  destruct (H eq_refl) as (_ & [O|[O|[O|O]]] & _); vm_compute in O; discriminate O.
Qed.

(** ** GameManager.tick: skipped frames *)

(** C1: when the time step computed from the frame rate is zero, infinite
    or not a number, [tick] returns the game manager it was given -- every
    sprite with its position, velocity, size, elapsed time and images, the
    followed cow and the description -- and draws no random number. *)
Theorem tick_skipped (h : Host) (g : GameManager.t) (k : nat) :
  is_zero (1 / frameRate h) = true \/
  is_infinite (1 / frameRate h) = true \/
  is_nan (1 / frameRate h) = true ->
  GameManager.tick h g k = (g, k).
Proof.
  intros H. unfold GameManager.tick.
  rewrite skipsFrame_class.
  destruct H as [-> | [-> | ->]]; rewrite ?orb_true_r; reflexivity.
Qed.

Lemma tick_skipped_witness :
  is_infinite (1 / frameRate Examples.firstFrame) = true /\
  GameManager.tick Examples.firstFrame (fst Examples.start) (snd Examples.start)
  = (fst Examples.start, snd Examples.start).
Proof.
  split; [reflexivity|].
  apply tick_skipped. right; left. reflexivity.
Defined.

(** ** The state monad and the loops *)

Lemma forEach_cons {A : Type} (f : A -> Rand A) (a : A) (l : list A) (k : nat) :
  forEach f (a :: l) k =
  (fst (f a k) :: fst (forEach f l (snd (f a k))), snd (forEach f l (snd (f a k)))).
Proof.
  simpl. unfold bind, ret. destruct (f a k) as [a' k1]. simpl.
  destruct (forEach f l k1) as [l' k2]. reflexivity.
Qed.

(** A property that every call of the body keeps is kept by the loop. *)
Lemma forEach_Forall {A : Type} (P : A -> Prop) (f : A -> Rand A) (l : list A) :
  (forall a k, P a -> P (fst (f a k))) ->
  forall k, Forall P l -> Forall P (fst (forEach f l k)).
Proof.
  intros Hf. induction l as [|a l IH]; intros k Hl.
  - constructor.
  - rewrite forEach_cons. simpl.
    apply Forall_cons_iff in Hl as [Ha Hl].
    constructor; [apply Hf, Ha | apply IH, Hl].
Qed.

Lemma forEach_length {A : Type} (f : A -> Rand A) (l : list A) (k : nat) :
  length (fst (forEach f l k)) = length l.
Proof.
  revert k. induction l as [|a l IH]; intros k; [reflexivity|].
  rewrite forEach_cons. simpl. f_equal. apply IH.
Qed.

Lemma alter_Forall {A : Type} (P : A -> Prop) (f : A -> A) (i : nat) (l : list A) :
  (forall a, P a -> P (f a)) -> Forall P l -> Forall P (alter f i l).
Proof.
  intros Hf Hl. apply Forall_alter; [exact Hl|]. intros a _. apply Hf.
Qed.

(** ** GameManager.tick: the shape of a frame that is not skipped *)

Lemma tick_valid (h : Host) (g : GameManager.t) (k : nat) :
  validDt (1 / frameRate h) = true ->
  GameManager.tick h g k = GameManager.update h (1 / frameRate h) g k.
Proof.
  intros H. unfold GameManager.tick.
  rewrite skipsFrame_valid, H. reflexivity.
Qed.

Lemma update_eq (h : Host) (dt : float) (g : GameManager.t) (k : nat) :
  let fence2 := Sprite.tick dt (GameManager._fence g) in
  let cows3 := fst (collidedCows h dt g k) in
  let g' :=
    GameManager.make (GameManager._descriptionText g) (GameManager._descriptionFontSize g)
      (GameManager.stopPerson dt fence2 (movedPerson h dt g)) fence2 cows3
      (Sprite.tick dt (GameManager._title g)) (GameManager._followingCow g)
      (GameManager._descriptionPosition g) in
  GameManager.update h dt g k =
  (if (length (GameManager.cowsOutsideFence fence2 cows3) =? 0)%nat
   then GameManager.setDescription GameManager._descriptionSuccess
          GameManager._descriptionSuccessFontSize g'
   else g',
   snd (collidedCows h dt g k)).
Proof.
  unfold GameManager.update, collidedCows, movedCows, movedPerson, bind, ret. simpl.
  destruct (forEach (Cow.tick h dt) (GameManager.targetedCows h g) k) as [cows2 k2].
  simpl.
  destruct (forEach _ cows2 k2) as [cows3 k3]. simpl.
  destruct (length _ =? 0)%nat; reflexivity.
Qed.

(** ** The fence of the game *)

Lemma validDt_isFinite (dt : float) : validDt dt = true -> JS.isFinite dt = true.
Proof.
  intros H. pose proof (skipsFrame_valid dt) as E. rewrite H in E.
  unfold GameManager.skipsFrame in E. simpl in E.
  destruct (JS.isFinite dt); [reflexivity|].
  destruct (JS.not dt); discriminate E.
Qed.

(** A sprite that stands still at the origin stays there, whatever the
    time step. *)
Lemma Fence_tick_still (dt : float) :
  Sprite.tick dt (Fence.new MathHelper.VECTOR_ZERO) = Fence.new MathHelper.VECTOR_ZERO.
Proof.
  unfold Sprite.tick, P5Vector.add, P5Vector.mult.
  destruct (JS.isFinite dt) eqn:F; [|reflexivity].
  assert (Z : JS.orZero (0 * dt) = 0).
  { unfold JS.isFinite in F. rewrite FloatAxioms.ltb_spec, abs_spec in F.
    unfold JS.orZero, JS.not, JS.isNaN.
    rewrite !FloatAxioms.eqb_spec, mul_spec, Prim2SF_zero.
    destruct (Prim2SF dt) as [s|s| |s m e]; try discriminate F;
      destruct s; reflexivity. }
  cbn. rewrite Z. reflexivity.
Qed.

Lemma update_fence (h : Host) (dt : float) (g : GameManager.t) (k : nat) :
  GameManager._fence (fst (GameManager.update h dt g k))
  = Sprite.tick dt (GameManager._fence g).
Proof.
  rewrite update_eq. simpl. destruct (length _ =? 0)%nat; reflexivity.
Qed.

Lemma tick_fence_still (h : Host) (g : GameManager.t) (k : nat) :
  GameManager._fence g = Fence.new MathHelper.VECTOR_ZERO ->
  GameManager._fence (fst (GameManager.tick h g k)) = Fence.new MathHelper.VECTOR_ZERO.
Proof.
  intros Hg. unfold GameManager.tick.
  destruct (GameManager.skipsFrame _); [exact Hg|].
  rewrite update_fence, Hg. apply Fence_tick_still.
Qed.

Lemma keyTyped_sprites (key : string) (g : GameManager.t) :
  GameManager._person (GameManager.keyTyped key g) = GameManager._person g /\
  GameManager._fence (GameManager.keyTyped key g) = GameManager._fence g /\
  GameManager._title (GameManager.keyTyped key g) = GameManager._title g.
Proof.
  unfold GameManager.keyTyped.
  destruct (String.eqb key " "); [|repeat split].
  destruct (GameManager._followingCow g); [repeat split|].
  destruct (GameManager.firstIndex _ _); repeat split.
Qed.

Lemma times_tick_fence_still (h : Host) (n : nat) (g : GameManager.t) (k : nat) :
  GameManager._fence g = Fence.new MathHelper.VECTOR_ZERO ->
  GameManager._fence (fst (GameManager.times n (GameManager.tick h) g k))
  = Fence.new MathHelper.VECTOR_ZERO.
Proof.
  revert g k. induction n as [|n IH]; intros g k Hg; simpl; [exact Hg|].
  unfold bind. pose proof (tick_fence_still h g k Hg) as H.
  destruct (GameManager.tick h g k) as [g' k']. apply IH, H.
Qed.

Lemma create_fence (h : Host) (k : nat) :
  GameManager._fence (fst (GameManager.create h k)) = Fence.new MathHelper.VECTOR_ZERO.
Proof.
  unfold GameManager.create, bind, ret.
  destruct (GameManager.createCows h 3 k) as [cs k']. reflexivity.
Qed.

Lemma reachable_fence (w : World) :
  reachable w -> GameManager._fence (fst w) = Fence.new MathHelper.VECTOR_ZERO.
Proof.
  induction 1 as [h k|e w _ IH].
  - unfold GameManager.setup, bind.
    pose proof (create_fence h k) as H.
    destruct (GameManager.create h k) as [g k']. apply times_tick_fence_still, H.
  - destruct e as [h|h|key]; simpl.
    + apply tick_fence_still, IH.
    + exact IH.
    + rewrite (proj1 (proj2 (keyTyped_sprites key (fst w)))). exact IH.
Qed.

(** ** The win test *)

Lemma cowsOutsideFence_none (fence : Fence.t) (cows : list Cow.t) :
  (length (GameManager.cowsOutsideFence fence cows) =? 0)%nat = true <->
  Forall (insideFence fence) cows.
Proof.
  unfold GameManager.cowsOutsideFence, insideFence.
  induction cows as [|c cs IH]; simpl.
  - split; [constructor | reflexivity].
  - rewrite Forall_cons_iff, <- IH, <- positionInBounds_iff.
    destruct (MathHelper.positionInBounds _ _ _); simpl; split;
      try tauto; try discriminate.
Qed.

Lemma cowsOutsideFence_some (fence : Fence.t) (cows : list Cow.t) :
  (length (GameManager.cowsOutsideFence fence cows) =? 0)%nat = false <->
  Exists (fun cow => ~ insideFence fence cow) cows.
Proof.
  unfold GameManager.cowsOutsideFence, insideFence.
  induction cows as [|c cs IH]; simpl.
  - split; [discriminate | intros H; inversion H].
  - rewrite Exists_cons, <- IH, <- positionInBounds_not.
    destruct (MathHelper.positionInBounds _ _ _); simpl; split;
      try tauto; try discriminate.
    intros [H|H]; [discriminate H | exact H].
Qed.

(** After a frame that is not skipped the description is the success one
    when every cow is inside the rectangle of the fence, and what it was
    when some cow is not. *)
Lemma update_description (h : Host) (dt : float) (g : GameManager.t) (k : nat) :
  let g' := fst (GameManager.update h dt g k) in
  (Forall (insideFence (GameManager._fence g')) (GameManager._cows g') ->
     showsSuccess g') /\
  (Exists (fun cow => ~ insideFence (GameManager._fence g') cow) (GameManager._cows g') ->
     GameManager._descriptionText g' = GameManager._descriptionText g /\
     GameManager._descriptionFontSize g' = GameManager._descriptionFontSize g).
Proof.
  rewrite update_eq. simpl.
  destruct (length _ =? 0)%nat eqn:E; simpl.
  - split; [intros _; split; reflexivity|].
    intros H. apply cowsOutsideFence_some in H. congruence.
  - split; [|intros _; split; reflexivity].
    intros H. apply cowsOutsideFence_none in H. congruence.
Qed.

(** In the game the rectangle of the win test is the square
    (-200, 200) x (-200, 200). *)
Lemma insideFence_home (cow : Cow.t) :
  insideFence (Fence.new MathHelper.VECTOR_ZERO) cow <->
  Flt (-200) (JS.orZero (x (Cow._position cow))) /\
  Flt (JS.orZero (x (Cow._position cow))) 200 /\
  Flt (-200) (JS.orZero (y (Cow._position cow))) /\
  Flt (JS.orZero (y (Cow._position cow))) 200.
Proof. reflexivity. Qed.

(** C2, as the code has it: at the end of a [tick] with a finite, nonzero
    time step the description shows the success text and size when every
    cow's position is then strictly inside the rectangle that has the
    position of the fence as its centre and the size of the fence as its
    extents, and is what it was before the call when some cow is not.  In
    every world the game can reach that rectangle is the whole footprint of
    the fence, the square (-200, 200) x (-200, 200), wall included, and not
    the inner bound of [isOverlapping]; the coordinates compared are those
    of the copy that [getPosition()] makes, [x || 0] and [y || 0]. *)
Theorem tick_win_test (h : Host) (g : GameManager.t) (k : nat) :
  validDt (1 / frameRate h) = true ->
  let g' := fst (GameManager.tick h g k) in
  let unchanged :=
    GameManager._descriptionText g' = GameManager._descriptionText g /\
    GameManager._descriptionFontSize g' = GameManager._descriptionFontSize g in
  ((Forall (insideFence (GameManager._fence g')) (GameManager._cows g') ->
      showsSuccess g') /\
   (Exists (fun cow => ~ insideFence (GameManager._fence g') cow) (GameManager._cows g') ->
      unchanged)) /\
  (reachable (g, k) ->
   let home (cow : Cow.t) :=
     let px := JS.orZero (x (Cow._position cow)) in
     let py := JS.orZero (y (Cow._position cow)) in
     Flt (-200) px /\ Flt px 200 /\ Flt (-200) py /\ Flt py 200 in
   (Forall home (GameManager._cows g') -> showsSuccess g') /\
   (Exists (fun cow => ~ home cow) (GameManager._cows g') -> unchanged)).
Proof.
  intros Hdt g' unchanged.
  assert (E : fst (GameManager.update h (1 / frameRate h) g k) = g')
    by (unfold g'; rewrite (tick_valid _ _ _ Hdt); reflexivity).
  pose proof (update_description h (1 / frameRate h) g k) as H.
  cbv zeta in H. rewrite E in H.
  split; [exact H|].
  intros Hw home.
  assert (F : GameManager._fence g' = Fence.new MathHelper.VECTOR_ZERO)
    by apply (reachable_fence _ (reachable_step (Tick h) _ Hw)).
  rewrite F in H. destruct H as [Hall Hsome]. split.
  - intros Hc. apply Hall. rewrite Forall_forall in Hc |- *.
    intros cow Hcow. apply insideFence_home, Hc, Hcow.
  - intros Hc. apply Hsome. rewrite Exists_exists in Hc |- *.
    destruct Hc as (cow & Hcow & Hout). exists cow. split; [exact Hcow|].
    intros Hin. apply Hout, insideFence_home, Hin.
Qed.

Lemma tick_win_test_witness :
  validDt (1 / frameRate (Examples.wallHost 30)) = true /\
  reachable Examples.inTheWall /\
  map Cow.getPosition
    (GameManager._cows
       (fst (GameManager.tick (Examples.wallHost 30)
               (fst Examples.inTheWall) (snd Examples.inTheWall))))
  = [createVector 190 0; createVector 190 0; createVector 190 0] /\
  showsSuccess
    (fst (GameManager.tick (Examples.wallHost 30)
            (fst Examples.inTheWall) (snd Examples.inTheWall))).
Proof.
  assert (H : reachable Examples.inTheWall) by apply reachable_setup.
  split; [reflexivity|]. split; [exact H|]. split; [vm_compute; reflexivity|].
  refine (proj1 (proj2 (tick_win_test (Examples.wallHost 30)
                          (fst Examples.inTheWall) (snd Examples.inTheWall) eq_refl)
                   H) _).
  vm_compute. repeat constructor.
Defined.

(** C2, as the claim words it, fails.  The interior of the fence is what
    its wall surrounds, the inner bound of [isOverlapping], 350 x 350.  In
    a game whose three cows are born at (190, 0) they stand in the east side
    of the wall, outside that bound, and the first frame nevertheless
    switches the description to the success text. *)
Lemma win_inside_the_wall :
  reachable Examples.inTheWall /\
  validDt (1 / frameRate (Examples.wallHost 30)) = true /\
  GameManager._descriptionText (fst Examples.inTheWall) = GameManager._descriptionInitial /\
  (let g' := fst (step (Tick (Examples.wallHost 30)) Examples.inTheWall) in
   Forall (fun cow =>
             Cow.getPosition cow = createVector 190 0 /\
             Fence.isOverlapping (GameManager._fence g') (Cow.getPosition cow) = true /\
             ~ strictlyInside (Cow.getPosition cow) (Sprite.getPosition (GameManager._fence g'))
                 (Fence.innerFenceBoundSize (GameManager._fence g')))
          (GameManager._cows g') /\
   GameManager._cows g' <> [] /\
   showsSuccess g').
Proof.
  split; [apply reachable_setup|]. split; [reflexivity|].
  split; [vm_compute; reflexivity|].
  split; [|split; [vm_compute; discriminate | split; vm_compute; reflexivity]].
  vm_compute.
  repeat constructor; intros (_ & H & _); discriminate H.
Qed.
(** ** The description never leaves the success state *)

Lemma update_keeps_success (h : Host) (dt : float) (g : GameManager.t) (k : nat) :
  showsSuccess g -> showsSuccess (fst (GameManager.update h dt g k)).
Proof.
  intros Hg. rewrite update_eq. simpl.
  destruct (length _ =? 0)%nat; [split; reflexivity | exact Hg].
Qed.

Lemma tick_keeps_success (h : Host) (g : GameManager.t) (k : nat) :
  showsSuccess g -> showsSuccess (fst (GameManager.tick h g k)).
Proof.
  intros Hg. unfold GameManager.tick.
  destruct (GameManager.skipsFrame _); [exact Hg | apply update_keeps_success, Hg].
Qed.

Lemma keyTyped_description (key : string) (g : GameManager.t) :
  GameManager._descriptionText (GameManager.keyTyped key g)
    = GameManager._descriptionText g /\
  GameManager._descriptionFontSize (GameManager.keyTyped key g)
    = GameManager._descriptionFontSize g.
Proof.
  unfold GameManager.keyTyped.
  destruct (String.eqb key " "); [|split; reflexivity].
  destruct (GameManager._followingCow g); [split; reflexivity|].
  destruct (GameManager.firstIndex _ _); split; reflexivity.
Qed.

Lemma step_keeps_success (e : Event) (w : World) :
  showsSuccess (fst w) -> showsSuccess (fst (step e w)).
Proof.
  intros Hw. destruct e as [h|h|key]; simpl.
  - apply tick_keeps_success, Hw.
  - exact Hw.
  - destruct Hw as [Ht Hs]. destruct (keyTyped_description key (fst w)) as [Et Es].
    split; congruence.
Qed.

(** C3: once the description shows the success text at the success size,
    it does so after any sequence of [tick], [draw] and [keyTyped] calls,
    whatever the hosts, the keys and the positions of the cows. *)
Theorem success_is_permanent (es : list Event) (w : World) :
  showsSuccess (fst w) -> showsSuccess (fst (run es w)).
Proof.
  revert w. induction es as [|e es IH]; intros w Hw; simpl.
  - exact Hw.
  - apply IH, step_keeps_success, Hw.
Qed.

(** ** Velocities of the cows *)

Ltac each_velocity H :=
  unfold cowVelocities, assignedVelocities in H; simpl in H;
  repeat (destruct H as [H|H]; [subst|]); [..|contradiction H].

Lemma cowVelocities_axisAligned (v : Vector) :
  In v cowVelocities -> axisAligned v.
Proof.
  intros H. each_velocity H; vm_compute; tauto.
Qed.

Lemma cowVelocities_zero : In MathHelper.VECTOR_ZERO cowVelocities.
Proof. left. reflexivity. Qed.

Lemma cowVelocities_normal (d : Direction) :
  In (P5Vector.mult (directionVector d) Cow._normalSpeed) cowVelocities.
Proof. destruct d; vm_compute; tauto. Qed.

Lemma cowVelocities_target (d : Direction) :
  In (P5Vector.mult (directionVector d) Cow._targetSpeed) cowVelocities.
Proof. destruct d; vm_compute; tauto. Qed.

(** Inverting a velocity, as the collision responses do with
    [setVelocity(getVelocity().mult(-1))], keeps it among the velocities of
    the cows. *)
Lemma cowVelocities_inverted (v : Vector) :
  In v cowVelocities ->
  In (P5Vector.copy (P5Vector.mult (P5Vector.copy v) (-1))) cowVelocities.
Proof.
  intros H. each_velocity H; vm_compute; tauto.
Qed.

Lemma AnimatingSprite_getImage_sprite (a : AnimatingSprite.t) :
  AnimatingSprite.sprite (AnimatingSprite._getImage a) = AnimatingSprite.sprite a.
Proof.
  unfold AnimatingSprite._getImage.
  destruct (AnimatingSprite.currentImageArray a); reflexivity.
Qed.

(** The animation step moves the sprite and leaves its velocity alone. *)
Lemma AnimatingSprite_tick_velocity (dt : float) (a : AnimatingSprite.t) :
  AnimatingSprite._velocity (AnimatingSprite.tick dt a) = AnimatingSprite._velocity a.
Proof.
  unfold AnimatingSprite.tick, AnimatingSprite._velocity. simpl.
  rewrite AnimatingSprite_getImage_sprite. reflexivity.
Qed.

Lemma AnimatingSprite_tick_position (dt : float) (a : AnimatingSprite.t) :
  AnimatingSprite._position (AnimatingSprite.tick dt a)
  = P5Vector.add (AnimatingSprite._position a)
                 (P5Vector.mult (AnimatingSprite.getVelocity a) dt).
Proof.
  unfold AnimatingSprite.tick, AnimatingSprite._position, AnimatingSprite._velocity.
  simpl. rewrite AnimatingSprite_getImage_sprite. reflexivity.
Qed.

Lemma tickTarget_velocity (target : Vector) (c : Cow.t) :
  In (Cow._velocity (Cow._tickTarget target c)) cowVelocities.
Proof.
  unfold Cow._tickTarget.
  repeat match goal with |- context [if ?b then _ else _] => destruct b end;
    first [apply (cowVelocities_target Left) | apply (cowVelocities_target Right)
          | apply (cowVelocities_target Up) | apply (cowVelocities_target Down)
          | apply cowVelocities_zero].
Qed.

(** What one frame, on the host [h] and with the time step [dt], does to
    the velocity of a cow. *)
Section OneFrame.

Variables (h : Host) (dt : float).

Lemma tickNormal_velocity (c : Cow.t) (k : nat) :
  In (Cow._velocity c) cowVelocities ->
  In (Cow._velocity (fst (Cow._tickNormal h dt c k))) cowVelocities.
Proof.
  intros Hc. unfold Cow._tickNormal, bind, ret, p5random, p5randomChoice. simpl.
  destruct (_ <? _); [|exact Hc].
  destruct (_ >? _); simpl.
  - apply cowVelocities_zero.
  - apply cowVelocities_normal.
Qed.

Lemma Cow_tick_velocity (c : Cow.t) (k : nat) :
  In (Cow._velocity c) cowVelocities ->
  In (Cow._velocity (fst (Cow.tick h dt c k))) cowVelocities.
Proof.
  intros Hc. unfold Cow.tick, bind, ret.
  destruct (Cow._targetPosition c) as [target|].
  - simpl. unfold Cow._velocity. simpl. rewrite AnimatingSprite_tick_velocity.
    apply tickTarget_velocity.
  - pose proof (tickNormal_velocity c k Hc) as H.
    destruct (Cow._tickNormal h dt c k) as [c' k']. simpl in *.
    unfold Cow._velocity. simpl. rewrite AnimatingSprite_tick_velocity. exact H.
Qed.

Lemma turnAround_velocity (c : Cow.t) (k : nat) :
  In (Cow._velocity c) cowVelocities ->
  In (Cow._velocity (fst (GameManager.turnAround h dt c k))) cowVelocities.
Proof.
  intros Hc. unfold GameManager.turnAround.
  apply Cow_tick_velocity. apply cowVelocities_inverted, Hc.
Qed.

Lemma fenceResponse_velocity (fence : Fence.t) (c : Cow.t) (k : nat) :
  In (Cow._velocity c) cowVelocities ->
  In (Cow._velocity (fst (GameManager.fenceResponse h dt fence c k))) cowVelocities.
Proof.
  intros Hc. unfold GameManager.fenceResponse.
  destruct (Fence.isOverlapping _ _); [apply turnAround_velocity, Hc | exact Hc].
Qed.

Lemma boundsResponse_velocity (c : Cow.t) (k : nat) :
  In (Cow._velocity c) cowVelocities ->
  In (Cow._velocity (fst (GameManager.boundsResponse h dt c k))) cowVelocities.
Proof.
  intros Hc. unfold GameManager.boundsResponse.
  destruct (negb _); [apply turnAround_velocity, Hc | exact Hc].
Qed.

Lemma collide_eq (fence : Fence.t) (cow : Cow.t) (k : nat) :
  GameManager.collide h dt fence cow k
  = GameManager.boundsResponse h dt
      (fst (GameManager.fenceResponse h dt fence cow k))
      (snd (GameManager.fenceResponse h dt fence cow k)).
Proof.
  unfold GameManager.collide, bind.
  destruct (GameManager.fenceResponse h dt fence cow k); reflexivity.
Qed.

Lemma collide_velocity (fence : Fence.t) (c : Cow.t) (k : nat) :
  In (Cow._velocity c) cowVelocities ->
  In (Cow._velocity (fst (GameManager.collide h dt fence c k))) cowVelocities.
Proof.
  intros Hc. rewrite collide_eq.
  apply boundsResponse_velocity, fenceResponse_velocity, Hc.
Qed.

Lemma update_tame (g : GameManager.t) (k : nat) :
  tameCows g -> tameCows (fst (GameManager.update h dt g k)).
Proof.
  unfold tameCows. intros Hg.
  assert (H : Forall (fun c => In (Cow._velocity c) cowVelocities)
                (fst (collidedCows h dt g k))).
  { unfold collidedCows, movedCows.
    apply forEach_Forall; [intros; apply collide_velocity; assumption|].
    apply forEach_Forall; [intros; apply Cow_tick_velocity; assumption|].
    unfold GameManager.targetedCows.
    destruct (GameManager._followingCow g); [|exact Hg].
    apply alter_Forall; [|exact Hg]. intros c Hc. exact Hc. }
  rewrite update_eq. simpl. destruct (length _ =? 0)%nat; exact H.
Qed.

End OneFrame.

Lemma tick_tame (h : Host) (g : GameManager.t) (k : nat) :
  tameCows g -> tameCows (fst (GameManager.tick h g k)).
Proof.
  intros Hg. unfold GameManager.tick.
  destruct (GameManager.skipsFrame _); [exact Hg | apply update_tame, Hg].
Qed.

Lemma keyTyped_tame (key : string) (g : GameManager.t) :
  tameCows g -> tameCows (GameManager.keyTyped key g).
Proof.
  unfold tameCows, GameManager.keyTyped. intros Hg.
  destruct (String.eqb key " "); [|exact Hg].
  destruct (GameManager._followingCow g); simpl.
  - apply alter_Forall; [|exact Hg]. intros c Hc. exact Hc.
  - destruct (GameManager.firstIndex _ _); exact Hg.
Qed.

Lemma step_tame (e : Event) (w : World) :
  tameCows (fst w) -> tameCows (fst (step e w)).
Proof.
  intros Hw. destruct e as [h|h|key]; simpl.
  - apply tick_tame, Hw.
  - exact Hw.
  - apply keyTyped_tame, Hw.
Qed.

Lemma times_tick_tame (h : Host) (n : nat) (g : GameManager.t) (k : nat) :
  tameCows g -> tameCows (fst (GameManager.times n (GameManager.tick h) g k)).
Proof.
  revert g k. induction n as [|n IH]; intros g k Hg; simpl.
  - exact Hg.
  - unfold bind. pose proof (tick_tame h g k Hg) as H.
    destruct (GameManager.tick h g k) as [g' k']. apply IH, H.
Qed.

Lemma createCows_tame (h : Host) (n : nat) (k : nat) :
  Forall (fun c => In (Cow._velocity c) cowVelocities)
         (fst (GameManager.createCows h n k)).
Proof.
  revert k. induction n as [|n IH]; intros k; simpl.
  - constructor.
  - unfold bind, ret, GameManager.createCow, p5random. simpl.
    specialize (IH (S (S k))).
    destruct (GameManager.createCows h n (S (S k))) as [cs k']. simpl in *.
    constructor; [apply cowVelocities_zero | exact IH].
Qed.

Lemma setup_tame (h : Host) (k : nat) : tameCows (fst (GameManager.setup h k)).
Proof.
  unfold GameManager.setup, bind.
  assert (H : tameCows (fst (GameManager.create h k))).
  { unfold GameManager.create, bind, ret, tameCows.
    pose proof (createCows_tame h 3 k) as H.
    destruct (GameManager.createCows h 3 k) as [cs k']. exact H. }
  destruct (GameManager.create h k) as [g k']. apply times_tick_tame, H.
Qed.

Lemma reachable_tame (w : World) : reachable w -> tameCows (fst w).
Proof.
  induction 1 as [h k|e w _ IH]; [apply setup_tame | apply step_tame, IH].
Qed.

(** C10: in every world the game can reach, in either behaviour mode, each
    cow's velocity has at most one component that is not zero. *)
Theorem cow_velocity_axis_aligned (w : World) :
  reachable w ->
  Forall (fun c => axisAligned (Cow._velocity c)) (GameManager._cows (fst w)).
Proof.
  intros Hw. apply reachable_tame in Hw.
  unfold tameCows in Hw. rewrite Forall_forall in Hw |- *.
  intros c Hc. apply cowVelocities_axisAligned, Hw, Hc.
Qed.

(** ** Cow.tick when following *)

Lemma target_velocities :
  P5Vector.mult (directionVector Left) Cow._targetSpeed = createVector (-40) 0 /\
  P5Vector.mult (directionVector Right) Cow._targetSpeed = createVector 40 0 /\
  P5Vector.mult (directionVector Up) Cow._targetSpeed = createVector 0 (-40) /\
  P5Vector.mult (directionVector Down) Cow._targetSpeed = createVector 0 40.
Proof. repeat split; reflexivity. Qed.

Lemma Cow_tick_following (h : Host) (dt : float) (c : Cow.t) (target : Vector) (k : nat) :
  Cow._targetPosition c = Some target ->
  Cow.tick h dt c k
  = (Cow.withAnim (AnimatingSprite.tick dt) (Cow._tickTarget target c), k).
Proof. intros H. unfold Cow.tick, bind, ret. rewrite H. reflexivity. Qed.



(** ** The collision responses of a cow *)

(** The [i]-th element after the loop is the body's result on the [i]-th
    element before it. *)
Lemma forEach_lookup {A : Type} (f : A -> Rand A) (l : list A) (k i : nat) (a' : A) :
  fst (forEach f l k) !! i = Some a' ->
  exists a k', l !! i = Some a /\ a' = fst (f a k').
Proof.
  revert k i. induction l as [|a l IH]; intros k i.
  - destruct i; discriminate.
  - rewrite forEach_cons. destruct i as [|i]; simpl.
    + intros [= <-]. exists a, k. split; reflexivity.
    + apply IH.
Qed.



Lemma mult_finite (v : Vector) (dt : float) :
  JS.isFinite dt = true -> P5Vector.mult v dt = vec (x v * dt) (y v * dt).
Proof. intros H. unfold P5Vector.mult. rewrite H. reflexivity. Qed.

Lemma Cow_moved_position (dt : float) (c : Cow.t) :
  Cow._position (Cow.withAnim (AnimatingSprite.tick dt) c)
  = P5Vector.add (Cow._position c) (P5Vector.mult (Cow.getVelocity c) dt).
Proof. apply AnimatingSprite_tick_position. Qed.

Lemma Cow_moved_velocity (dt : float) (c : Cow.t) :
  Cow._velocity (Cow.withAnim (AnimatingSprite.tick dt) c) = Cow._velocity c.
Proof. apply AnimatingSprite_tick_velocity. Qed.

Lemma Cow_getVelocity (c : Cow.t) :
  Cow.getVelocity c = P5Vector.copy (Cow._velocity c).
Proof. reflexivity. Qed.



(** A tick leaves the mode of the cow alone, and moves the cow by the
    velocity it ends with. *)
Lemma Cow_tick_target (h : Host) (dt : float) (c : Cow.t) (k : nat) :
  Cow._targetPosition (fst (Cow.tick h dt c k)) = Cow._targetPosition c.
Proof.
  unfold Cow.tick, bind, ret.
  destruct (Cow._targetPosition c) as [target|] eqn:E.
  - simpl. unfold Cow._tickTarget.
    repeat match goal with |- context [if ?b then _ else _] => destruct b end;
      exact E.
  - unfold Cow._tickNormal, bind, ret, p5random, p5randomChoice.
    destruct (_ <? _); [destruct (_ >? _)|]; exact E.
Qed.

Lemma Cow_tick_position (h : Host) (dt : float) (c : Cow.t) (k : nat) :
  Cow._position (fst (Cow.tick h dt c k))
  = P5Vector.add (Cow._position c)
                 (P5Vector.mult (Cow.getVelocity (fst (Cow.tick h dt c k))) dt).
Proof.
  unfold Cow.tick, bind, ret.
  destruct (Cow._targetPosition c) as [target|].
  - cbn [fst]. rewrite Cow_moved_position, !Cow_getVelocity, Cow_moved_velocity.
    unfold Cow._tickTarget.
    repeat match goal with |- context [if ?b then _ else _] => destruct b end;
      reflexivity.
  - unfold Cow._tickNormal, bind, ret, p5random, p5randomChoice.
    destruct (_ <? _); [destruct (_ >? _)|]; cbn [fst];
      rewrite Cow_moved_position, !Cow_getVelocity, Cow_moved_velocity; reflexivity.
Qed.











(** Both responses in one frame: in a window 500 wide a cow at (215, 0)
    overlaps the east side of the fence and is outside the game bounds, so
    its tick is run twice more and two more rolls are drawn. *)
Example both_responses_fire :
  Fence.isOverlapping Examples.homeFence (createVector 215 0) = true /\
  MathHelper.positionInBounds (createVector 215 0) MathHelper.VECTOR_ZERO
    (GameManager.gameBounds Examples.narrowHost) = false /\
  snd (GameManager.collide Examples.narrowHost (1 / 30) Examples.homeFence
         (Examples.cowAt (createVector 215 0) MathHelper.VECTOR_ZERO) 0%nat) = 2%nat.
Proof. repeat split; reflexivity. Qed.
(** ** The person and the fence *)

(** The direction read from the keyboard is one of the five vectors of
    [MathHelper], which [copy()] leaves as they are. *)
Lemma controlledDirection_copy (h : Host) :
  P5Vector.copy (GameManager.controlledDirection h) = GameManager.controlledDirection h.
Proof.
  unfold GameManager.controlledDirection.
  repeat match goal with |- context [if ?b then _ else _] => destruct b end;
    reflexivity.
Qed.

Lemma steeredPerson_velocity (h : Host) (g : GameManager.t) :
  AnimatingSprite._velocity (GameManager.steeredPerson h g)
  = P5Vector.mult (GameManager.controlledDirection h) Person._speed.
Proof.
  unfold GameManager.steeredPerson, Person.setControlledDirection.
  rewrite controlledDirection_copy. reflexivity.
Qed.

(** So is the velocity the person is given. *)
Lemma steeredPerson_getVelocity (h : Host) (g : GameManager.t) :
  AnimatingSprite.getVelocity (GameManager.steeredPerson h g)
  = AnimatingSprite._velocity (GameManager.steeredPerson h g).
Proof.
  unfold GameManager.steeredPerson, Person.setControlledDirection,
    GameManager.controlledDirection.
  repeat match goal with |- context [if ?b then _ else _] => destruct b end;
    reflexivity.
Qed.

Lemma tick_person (h : Host) (g : GameManager.t) (k : nat) :
  validDt (1 / frameRate h) = true ->
  GameManager._person (fst (GameManager.tick h g k))
  = GameManager.stopPerson (1 / frameRate h)
      (Sprite.tick (1 / frameRate h) (GameManager._fence g))
      (movedPerson h (1 / frameRate h) g).
Proof.
  intros Hdt. rewrite (tick_valid _ _ _ Hdt), update_eq. simpl.
  destruct (length _ =? 0)%nat; reflexivity.
Qed.

(** C8, as the code has it: in a [tick] that is not skipped, the person
    first moves by velocity x dt, the velocity being the steered direction
    at the person's speed.  If the position reached overlaps the fence, the
    person's position becomes that position minus velocity x dt, computed in
    binary64 arithmetic and stored as [setPosition] stores it, as a copy,
    and the velocity becomes the zero vector; if it does not overlap the
    fence, the person is left as moved. *)
Theorem person_stopped_by_fence (h : Host) (g : GameManager.t) (k : nat) :
  validDt (1 / frameRate h) = true ->
  let dt := 1 / frameRate h in
  let fence := Sprite.tick dt (GameManager._fence g) in
  let moved := movedPerson h dt g in
  let person' := GameManager._person (fst (GameManager.tick h g k)) in
  AnimatingSprite._velocity moved
    = P5Vector.mult (GameManager.controlledDirection h) Person._speed /\
  AnimatingSprite._position moved
    = P5Vector.add (AnimatingSprite._position (GameManager._person g))
                   (P5Vector.mult (AnimatingSprite._velocity moved) dt) /\
  (Fence.isOverlapping fence (AnimatingSprite.getPosition moved) = true ->
     AnimatingSprite._position person'
       = P5Vector.copy
           (P5Vector.sub (AnimatingSprite.getPosition moved)
                         (P5Vector.mult (AnimatingSprite.getVelocity moved) dt)) /\
     AnimatingSprite._velocity person' = MathHelper.VECTOR_ZERO) /\
  (Fence.isOverlapping fence (AnimatingSprite.getPosition moved) = false ->
     person' = moved).
Proof.
  intros Hdt dt fence moved person'.
  assert (Hv : AnimatingSprite._velocity moved
               = P5Vector.mult (GameManager.controlledDirection h) Person._speed).
  { unfold moved, movedPerson. rewrite AnimatingSprite_tick_velocity.
    apply steeredPerson_velocity. }
  split; [exact Hv|]. split.
  - unfold moved, movedPerson.
    rewrite AnimatingSprite_tick_position, AnimatingSprite_tick_velocity,
      steeredPerson_getVelocity.
    reflexivity.
  - unfold person'. rewrite (tick_person _ _ _ Hdt). fold dt fence moved.
    unfold GameManager.stopPerson.
    split; intros ->; [split|]; reflexivity.
Qed.

Lemma person_stopped_by_fence_witness :
  validDt (1 / frameRate (Examples.host 0.4375 (Some LEFT_ARROW))) = true /\
  AnimatingSprite._velocity
    (GameManager._person
       (fst (GameManager.tick (Examples.host 0.4375 (Some LEFT_ARROW))
               (fst Examples.afterLongFrame) (snd Examples.afterLongFrame))))
  = MathHelper.VECTOR_ZERO.
Proof.
  split; [reflexivity|].
  exact (proj2 (proj1 (proj2 (proj2 (person_stopped_by_fence
                  (Examples.host 0.4375 (Some LEFT_ARROW))
                  (fst Examples.afterLongFrame) (snd Examples.afterLongFrame)
                  eq_refl))) eq_refl)).
Defined.

(** C8, as the claim words it, fails: the position is not always restored
    exactly.  After one frame of 4 seconds with the left arrow held the
    person stands at (-120, 0).  In the next frame, 1/0.4375 seconds long,
    the person reaches the west side of the fence and is taken back to
    (-119.99999999999999, 0): the sum and the difference are both rounded. *)
Lemma person_rollback_not_exact :
  reachable Examples.afterLongFrame /\
  validDt (1 / frameRate (Examples.host 0.4375 (Some LEFT_ARROW))) = true /\
  Fence.isOverlapping
    (Sprite.tick (1 / 0.4375) (GameManager._fence (fst Examples.afterLongFrame)))
    (AnimatingSprite.getPosition
       (movedPerson (Examples.host 0.4375 (Some LEFT_ARROW)) (1 / 0.4375)
          (fst Examples.afterLongFrame))) = true /\
  AnimatingSprite._position (GameManager._person (fst Examples.afterLongFrame))
  = createVector (-120) 0 /\
  AnimatingSprite._position
    (GameManager._person
       (fst (GameManager.tick (Examples.host 0.4375 (Some LEFT_ARROW))
               (fst Examples.afterLongFrame) (snd Examples.afterLongFrame))))
  = createVector (-0x1.dffffffffffffp+6) 0 /\
  AnimatingSprite._position
    (GameManager._person
       (fst (GameManager.tick (Examples.host 0.4375 (Some LEFT_ARROW))
               (fst Examples.afterLongFrame) (snd Examples.afterLongFrame))))
  <> AnimatingSprite._position (GameManager._person (fst Examples.afterLongFrame)).
Proof.
  split; [apply reachable_step, reachable_setup|].
  split; [reflexivity|]. split; [vm_compute; reflexivity|].
  split; [vm_compute; reflexivity|]. split; [vm_compute; reflexivity|].
  intros H.
  apply (f_equal (fun v => x v =? -120)) in H. vm_compute in H. discriminate H.
Qed.

(** When no rounding occurs the step is undone exactly: from (-120, 0) a
    frame of 2 seconds takes the person to (-180, 0), into the fence, and
    back to (-120, 0). *)
Example person_rollback_exact :
  Fence.isOverlapping
    (Sprite.tick (1 / 0.5) (GameManager._fence (fst Examples.afterLongFrame)))
    (AnimatingSprite.getPosition
       (movedPerson (Examples.host 0.5 (Some LEFT_ARROW)) (1 / 0.5)
          (fst Examples.afterLongFrame))) = true /\
  AnimatingSprite._position
    (GameManager._person
       (fst (GameManager.tick (Examples.host 0.5 (Some LEFT_ARROW))
               (fst Examples.afterLongFrame) (snd Examples.afterLongFrame))))
  = AnimatingSprite._position (GameManager._person (fst Examples.afterLongFrame)).
Proof. split; vm_compute; reflexivity. Qed.

(** ** setup: the warm-up loop *)

(** When the frame rate reading is usable, the warm-up advances the game by
    the time step of that reading. *)
Lemma setup_uses_frame_rate (h : Host) (k : nat) :
  validDt (1 / frameRate h) = true ->
  GameManager.setup h k
  = (let* g := GameManager.create h in
     GameManager.times 10 (GameManager.update h (1 / frameRate h)) g) k.
Proof.
  intros Hdt. unfold GameManager.setup, bind.
  destruct (GameManager.create h k) as [g k'].
  generalize 10%nat. intros n. revert g k'.
  induction n as [|n IH]; intros g k'; simpl; [reflexivity|].
  unfold bind. rewrite (tick_valid _ _ _ Hdt).
  destruct (GameManager.update h (1 / frameRate h) g k') as [g' k'']. apply IH.
Qed.

(** C7 on the code: [setup] calls [tick] ten times, but [tick] reads its
    time step from the frame rate and not from the argument [{ dt: 1/30 }].
    With the frame rate of 0 that p5.js reports before the first frame every
    one of the ten calls is skipped: [setup] leaves the game as it was
    created, the person's animation clock at 0, where ten steps of 1/30
    would have brought it to 0.33333333333333331. *)
Theorem setup_warm_up_skipped :
  GameManager.setup Examples.firstFrame 0%nat = GameManager.create Examples.firstFrame 0%nat /\
  AnimatingSprite._elapsedTime
    (GameManager._person (fst (GameManager.setup Examples.firstFrame 0%nat))) = 0 /\
  AnimatingSprite._elapsedTime
    (GameManager._person (fst (setupAtNominalDt Examples.firstFrame 0%nat)))
  = 0x1.5555555555555p-2 /\
  GameManager.setup Examples.firstFrame 0%nat <> setupAtNominalDt Examples.firstFrame 0%nat.
Proof.
  split; [vm_compute; reflexivity|]. split; [vm_compute; reflexivity|].
  split; [vm_compute; reflexivity|].
  intros H.
  apply (f_equal (fun w => AnimatingSprite._elapsedTime (GameManager._person (fst w)) =? 0)) in H.
  vm_compute in H. discriminate H.
Qed.

(** ** Witnesses on concrete games *)

Lemma success_is_permanent_witness :
  showsSuccess (fst Examples.won) /\
  showsSuccess (fst (run Examples.leadOut Examples.won)).
Proof.
  assert (H : showsSuccess (fst Examples.won)) by (split; vm_compute; reflexivity).
  split; [exact H|].
  exact (success_is_permanent Examples.leadOut Examples.won H).
Defined.

(** The description stays although a cow has left: after [leadOut] the
    first cow stands at (0, -320), above the fence. *)
Example success_outlasts_the_herd :
  showsSuccess (fst (run Examples.leadOut Examples.won)) /\
  map Cow._position (GameManager._cows (fst (run Examples.leadOut Examples.won)))
  = [createVector 0 (-320); createVector 0 0; createVector 0 0] /\
  MathHelper.positionInBounds (createVector 0 (-320))
    (Sprite.getPosition (GameManager._fence (fst (run Examples.leadOut Examples.won))))
    (Sprite.getSize (GameManager._fence (fst (run Examples.leadOut Examples.won))))
  = false.
Proof. repeat split; vm_compute; reflexivity. Qed.

Lemma cow_velocity_axis_aligned_witness :
  reachable (run Examples.leadOut Examples.won) /\
  Forall (fun c => axisAligned (Cow._velocity c))
         (GameManager._cows (fst (run Examples.leadOut Examples.won))).
Proof.
  assert (H : reachable (run Examples.leadOut Examples.won))
    by (repeat apply reachable_step; apply reachable_setup).
  split; [exact H|].
  exact (cow_velocity_axis_aligned _ H).
Defined.

(** * Further properties of the code *)

(** ** More facts about binary64 numbers *)

Lemma is_nan_Prim2SF (a : float) : is_nan a = true -> Prim2SF a = S754_nan.
Proof.
  unfold is_nan. rewrite classify_spec. unfold SF64classify, SFclassify.
  destruct (Prim2SF a) as [s|s| |s m e]; try (destruct s; discriminate);
    try reflexivity.
  destruct s; destruct (Z.eqb (Z.pos (digits2_pos m)) prec); discriminate.
Qed.

(** NaN is not below and not above anything. *)
Lemma nan_not_ltb (a b : float) :
  is_nan a = true -> (a <? b) = false /\ (b <? a) = false.
Proof.
  intros H. apply is_nan_Prim2SF in H.
  rewrite !FloatAxioms.ltb_spec, H. unfold SFltb.
  split; [reflexivity|]. destruct (Prim2SF b) as [s|s| |s m e]; reflexivity.
Qed.

Lemma SFcompare_Lt_Gt a b : SFcompare a b = Some Lt -> SFcompare b a = Some Gt.
Proof.
  destruct a as [s|s| |s m e], b as [s'|s'| |s' m' e']; simpl;
    try discriminate; try reflexivity;
    try (destruct s; (discriminate || reflexivity));
    try (destruct s'; (discriminate || reflexivity)).
  - destruct s, s'; (reflexivity || discriminate).
  - change (Pos.compare_cont Eq m m') with (Pos.compare m m').
    change (Pos.compare_cont Eq m' m) with (Pos.compare m' m).
    rewrite (Z.compare_antisym e e'), (Pos.compare_antisym m m').
    destruct s, s'; try discriminate; try reflexivity;
      destruct (Z.compare e e'); simpl; try discriminate; try reflexivity;
      destruct (Pos.compare m m'); simpl; try discriminate; reflexivity.
Qed.

(** "Less than" is not "greater than". *)
Lemma Flt_not_gtb (a b : float) : Flt a b -> (b <? a) = false.
Proof.
  unfold Flt. rewrite FloatAxioms.compare_spec, FloatAxioms.ltb_spec. unfold SFltb.
  destruct (SFcompare (Prim2SF a) (Prim2SF b)) as [[]|] eqn:E; simpl;
    try discriminate.
  intros _. rewrite (SFcompare_Lt_Gt _ _ E). reflexivity.
Qed.

(** ** Positions that are not numbers *)

(** X1: a position with a NaN coordinate is inside no rectangle and
    overlaps no fence: all comparisons with NaN are false. *)
Theorem nan_position_is_nowhere (p c s : Vector) (f : Fence.t) :
  is_nan (x p) = true \/ is_nan (y p) = true ->
  MathHelper.positionInBounds p c s = false /\ Fence.isOverlapping f p = false.
Proof.
  intros H.
  assert (N : forall c' s', MathHelper.positionInBounds p c' s' = false).
  { intros c' s'. unfold MathHelper.positionInBounds, JS.gtb.
    destruct H as [H|H].
    - destruct (nan_not_ltb (x p) (x c' + x s' / 2) H) as [-> _].
      rewrite andb_false_r. reflexivity.
    - destruct (nan_not_ltb (y p) (y c' + y s' / 2) H) as [-> _].
      apply andb_false_r. }
  split; [apply N|]. unfold Fence.isOverlapping. rewrite !N. reflexivity.
Qed.

Lemma nan_position_is_nowhere_witness :
  is_nan (x (vec nan 0)) = true /\
  Fence.isOverlapping Examples.homeFence (vec nan 0) = false.
Proof.
  split; [reflexivity|].
  exact (proj2 (nan_position_is_nowhere (vec nan 0) MathHelper.VECTOR_ZERO
                  MathHelper.VECTOR_ZERO Examples.homeFence (or_introl eq_refl))).
Defined.

(** ** The fence stays where it is *)

(** X2: the fence never moves and never changes: in every world the game
    can reach it is the fence [setup] created, 400 x 400 at the origin with
    velocity zero, whatever the frame rates were. *)
Theorem fence_never_moves (w : World) :
  reachable w ->
  GameManager._fence (fst w)
  = Sprite.new (Some FenceImage) (createVector 400 400) (createVector 0 0)
               (createVector 0 0).
Proof. intros H. rewrite (reachable_fence w H). reflexivity. Qed.

Lemma fence_never_moves_witness :
  reachable (run Examples.leadOut Examples.won) /\
  GameManager._fence (fst (run Examples.leadOut Examples.won))
  = Sprite.new (Some FenceImage) (createVector 400 400) (createVector 0 0)
               (createVector 0 0).
Proof.
  assert (H : reachable (run Examples.leadOut Examples.won))
    by (repeat apply reachable_step; apply reachable_setup).
  split; [exact H|]. exact (fence_never_moves _ H).
Defined.

(** X3: the wall of the game.  In every reachable world a position
    overlaps the fence exactly when it is strictly inside the square
    (-225, 225) x (-225, 225), not strictly inside the square
    (-175, 175) x (-175, 175), and not strictly inside the opening
    (-50, 50) x (-250, -150). *)
Theorem wall_of_the_game (w : World) (p : Vector) :
  reachable w ->
  (Fence.isOverlapping (GameManager._fence (fst w)) p = true <->
     (Flt (-225) (x p) /\ Flt (x p) 225 /\ Flt (-225) (y p) /\ Flt (y p) 225) /\
     ~ (Flt (-175) (x p) /\ Flt (x p) 175 /\ Flt (-175) (y p) /\ Flt (y p) 175) /\
     ~ (Flt (-50) (x p) /\ Flt (x p) 50 /\ Flt (-250) (y p) /\ Flt (y p) (-150))).
Proof.
  intros H. rewrite (reachable_fence w H). unfold Fence.isOverlapping.
  rewrite !andb_true_iff, !negb_true_iff, positionInBounds_iff,
    !positionInBounds_not.
  split.
  - intros [[A B] C]. exact (conj A (conj B C)).
  - intros (A & B & C). exact (conj (conj A B) C).
Qed.

Lemma wall_of_the_game_witness :
  reachable Examples.start /\
  Fence.isOverlapping (GameManager._fence (fst Examples.start)) (createVector 200 0) = true.
Proof.
  assert (H : reachable Examples.start) by apply reachable_setup.
  split; [exact H|].
  apply (proj2 (wall_of_the_game Examples.start (createVector 200 0) H)).
  repeat split; try reflexivity;
    intros (_ & E & _); vm_compute in E; discriminate E.
Defined.

(** ** Loops, element by element *)

Lemma alter_fixed {A : Type} (f : A -> A) (i : nat) (l : list A) :
  (forall a, l !! i = Some a -> f a = a) -> alter f i l = l.
Proof.
  revert i. induction l as [|a l IH]; intros i H; [reflexivity|].
  destruct i as [|i]; simpl.
  - f_equal. apply H. reflexivity.
  - f_equal. apply IH. intros b Hb. apply H. exact Hb.
Qed.

(** ** Who has a target *)

Lemma turnAround_target (h : Host) (dt : float) (c : Cow.t) (k : nat) :
  Cow._targetPosition (fst (GameManager.turnAround h dt c k)) = Cow._targetPosition c.
Proof. unfold GameManager.turnAround. rewrite Cow_tick_target. reflexivity. Qed.

Lemma collide_target (h : Host) (dt : float) (fence : Fence.t) (c : Cow.t) (k : nat) :
  Cow._targetPosition (fst (GameManager.collide h dt fence c k)) = Cow._targetPosition c.
Proof.
  rewrite collide_eq. unfold GameManager.boundsResponse, GameManager.fenceResponse.
  destruct (Fence.isOverlapping fence (Cow._position c)).
  - destruct (negb _); [rewrite turnAround_target|]; apply turnAround_target.
  - cbn [ret fst snd]. destruct (negb _); [apply turnAround_target | reflexivity].
Qed.

Lemma update_cows (h : Host) (dt : float) (g : GameManager.t) (k : nat) :
  GameManager._cows (fst (GameManager.update h dt g k)) = fst (collidedCows h dt g k).
Proof.
  rewrite update_eq. simpl. destruct (length _ =? 0)%nat; reflexivity.
Qed.

Lemma update_followingCow (h : Host) (dt : float) (g : GameManager.t) (k : nat) :
  GameManager._followingCow (fst (GameManager.update h dt g k))
  = GameManager._followingCow g.
Proof.
  rewrite update_eq. simpl. destruct (length _ =? 0)%nat; reflexivity.
Qed.

Lemma targetedCows_length (h : Host) (g : GameManager.t) :
  length (GameManager.targetedCows h g) = length (GameManager._cows g).
Proof.
  unfold GameManager.targetedCows.
  destruct (GameManager._followingCow g); [apply length_alter | reflexivity].
Qed.

Lemma update_cows_length (h : Host) (dt : float) (g : GameManager.t) (k : nat) :
  length (GameManager._cows (fst (GameManager.update h dt g k)))
  = length (GameManager._cows g).
Proof.
  rewrite update_cows. unfold collidedCows, movedCows.
  rewrite !forEach_length. apply targetedCows_length.
Qed.

(** A cow after the frame has the target it was given before the sprites
    moved. *)
Lemma update_cow_target (h : Host) (dt : float) (g : GameManager.t) (k j : nat) (c : Cow.t) :
  GameManager._cows (fst (GameManager.update h dt g k)) !! j = Some c ->
  exists c1, GameManager.targetedCows h g !! j = Some c1 /\
             Cow._targetPosition c = Cow._targetPosition c1.
Proof.
  rewrite update_cows. unfold collidedCows, movedCows. intros H.
  apply forEach_lookup in H as (c2 & k2 & H2 & ->).
  apply forEach_lookup in H2 as (c1 & k1 & H1 & ->).
  exists c1. split; [exact H1|].
  rewrite collide_target, Cow_tick_target. reflexivity.
Qed.

Lemma update_herded (h : Host) (dt : float) (g : GameManager.t) (k : nat) :
  herded g -> herded (fst (GameManager.update h dt g k)).
Proof.
  intros (Hlen & Hidx & Htgt). unfold herded.
  rewrite update_cows_length, update_followingCow.
  split; [exact Hlen|]. split; [exact Hidx|].
  intros j c Hj Hc.
  apply update_cow_target in Hj as (c1 & H1 & E). rewrite E in Hc.
  unfold GameManager.targetedCows in H1.
  destruct (GameManager._followingCow g) as [i|] eqn:F.
  - destruct (Nat.eq_dec i j) as [->|Hne]; [reflexivity|].
    rewrite list_lookup_alter_ne in H1 by exact Hne.
    apply (Htgt j c1 H1 Hc).
  - apply (Htgt j c1 H1 Hc).
Qed.

Lemma tick_herded (h : Host) (g : GameManager.t) (k : nat) :
  herded g -> herded (fst (GameManager.tick h g k)).
Proof.
  intros Hg. unfold GameManager.tick.
  destruct (GameManager.skipsFrame _); [exact Hg | apply update_herded, Hg].
Qed.

(** ** keyTyped: the cow that is picked *)

Lemma firstIndex_filter (p : Cow.t -> bool) (cows : list Cow.t) :
  match GameManager.firstIndex p cows with
  | Some i =>
      exists c, cows !! i = Some c /\ p c = true /\
                (forall j c', (j < i)%nat -> cows !! j = Some c' -> p c' = false) /\
                hd_error (List.filter p cows) = Some c
  | None => List.filter p cows = []
  end.
Proof.
  induction cows as [|c cs IH]; simpl; [reflexivity|].
  destruct (p c) eqn:E.
  - exists c. repeat split; try assumption. intros j c' Hj. lia.
  - destruct (GameManager.firstIndex p cs) as [i|]; simpl; [|exact IH].
    destruct IH as (c0 & Hi & Hp & Hmin & Hhd).
    exists c0. repeat split; try assumption.
    intros [|j] c' Hj Hc'; simpl in Hc'.
    + injection Hc' as <-. exact E.
    + apply (Hmin j c'); [lia | exact Hc'].
Qed.

Lemma firstIndex_bound (p : Cow.t -> bool) (cows : list Cow.t) (i : nat) :
  GameManager.firstIndex p cows = Some i -> (i < length cows)%nat.
Proof.
  intros H. pose proof (firstIndex_filter p cows) as F. rewrite H in F.
  destruct F as (c & Hc & _). apply lookup_lt_Some in Hc. exact Hc.
Qed.

Lemma unsetTargetPosition_fixed (c : Cow.t) :
  Cow._targetPosition c = None -> Cow.unsetTargetPosition c = c.
Proof. destruct c as [a t]. simpl. intros ->. reflexivity. Qed.

Lemma keyTyped_herded (key : string) (g : GameManager.t) :
  herded g -> herded (GameManager.keyTyped key g).
Proof.
  intros Hg. unfold GameManager.keyTyped.
  destruct (String.eqb key " "); [|exact Hg].
  destruct (GameManager._followingCow g) as [i|] eqn:F.
  - destruct Hg as (Hlen & Hidx & Htgt).
    unfold herded. simpl. rewrite length_alter.
    split; [exact Hlen|]. split; [discriminate|].
    intros j c Hj Hc. exfalso.
    destruct (Nat.eq_dec i j) as [->|Hne].
    + rewrite list_lookup_alter_eq in Hj.
      destruct (GameManager._cows g !! j) as [c0|]; [|discriminate].
      injection Hj as <-. apply Hc. reflexivity.
    + rewrite list_lookup_alter_ne in Hj by exact Hne.
      specialize (Htgt j c Hj Hc). congruence.
  - destruct (GameManager.firstIndex _ _) as [i|] eqn:E; [|exact Hg].
    destruct Hg as (Hlen & Hidx & Htgt).
    unfold herded. simpl.
    split; [exact Hlen|]. split.
    + intros i' [= <-]. rewrite <- Hlen. apply (firstIndex_bound _ _ _ E).
    + intros j c Hj Hc. specialize (Htgt j c Hj Hc). congruence.
Qed.

Lemma createCows_shape (h : Host) (n k : nat) :
  length (fst (GameManager.createCows h n k)) = n /\
  Forall (fun c => Cow._targetPosition c = None) (fst (GameManager.createCows h n k)).
Proof.
  revert k. induction n as [|n IH]; intros k; simpl.
  - split; [reflexivity | constructor].
  - unfold bind, ret, GameManager.createCow, p5random. simpl.
    specialize (IH (S (S k))).
    destruct (GameManager.createCows h n (S (S k))) as [cs k']. simpl in *.
    destruct IH as [Hl Hf]. split; [f_equal; exact Hl|].
    constructor; [reflexivity | exact Hf].
Qed.

Lemma create_herded (h : Host) (k : nat) : herded (fst (GameManager.create h k)).
Proof.
  unfold GameManager.create, bind, ret.
  pose proof (createCows_shape h 3 k) as [Hl Hf].
  destruct (GameManager.createCows h 3 k) as [cs k']. simpl in *.
  split; [exact Hl|]. split; [discriminate|].
  intros j c Hj Hc. exfalso. apply Hc.
  rewrite Forall_forall in Hf. apply Hf.
  apply list_elem_of_lookup. exists j. exact Hj.
Qed.

Lemma times_tick_herded (h : Host) (n : nat) (g : GameManager.t) (k : nat) :
  herded g -> herded (fst (GameManager.times n (GameManager.tick h) g k)).
Proof.
  revert g k. induction n as [|n IH]; intros g k Hg; simpl; [exact Hg|].
  unfold bind. pose proof (tick_herded h g k Hg) as H.
  destruct (GameManager.tick h g k) as [g' k']. apply IH, H.
Qed.

Lemma reachable_herded (w : World) : reachable w -> herded (fst w).
Proof.
  induction 1 as [h k|e w _ IH].
  - unfold GameManager.setup, bind. pose proof (create_herded h k) as H.
    destruct (GameManager.create h k) as [g k']. apply times_tick_herded, H.
  - destruct e as [h|h|key]; simpl.
    + apply tick_herded, IH.
    + exact IH.
    + apply keyTyped_herded, IH.
Qed.

Lemma herded_untargeted (g : GameManager.t) :
  herded g -> GameManager._followingCow g = None ->
  forall j c, GameManager._cows g !! j = Some c -> Cow._targetPosition c = None.
Proof.
  intros (_ & _ & Htgt) F j c Hj.
  destruct (Cow._targetPosition c) as [t|] eqn:E; [|reflexivity].
  assert (Hc : Cow._targetPosition c <> None) by congruence.
  specialize (Htgt j c Hj Hc). congruence.
Qed.

(** X4: the shape of the herd.  In every world the game can reach there are
    exactly three cows, the followed cow (if any) is one of them, and a cow
    has a target position only if it is the followed cow: at most one cow is
    ever in following mode. *)
Theorem herd_shape (w : World) :
  reachable w ->
  length (GameManager._cows (fst w)) = 3%nat /\
  (forall i, GameManager._followingCow (fst w) = Some i -> (i < 3)%nat) /\
  (forall j c, GameManager._cows (fst w) !! j = Some c ->
     Cow._targetPosition c <> None -> GameManager._followingCow (fst w) = Some j).
Proof. intros H. exact (reachable_herded w H). Qed.

Lemma herd_shape_witness :
  reachable (run Examples.leadOut Examples.won) /\
  length (GameManager._cows (fst (run Examples.leadOut Examples.won))) = 3%nat.
Proof.
  assert (H : reachable (run Examples.leadOut Examples.won))
    by (repeat apply reachable_step; apply reachable_setup).
  split; [exact H|]. exact (proj1 (herd_shape _ H)).
Defined.



(** ** keyTyped: what it changes and what it leaves alone *)

Lemma alter_map_fixed {A B : Type} (proj : A -> B) (f : A -> A) (i : nat) (l : list A) :
  (forall a, proj (f a) = proj a) -> map proj (alter f i l) = map proj l.
Proof.
  intros H. revert i. induction l as [|a l IH]; intros i; [reflexivity|].
  destruct i as [|i]; simpl; f_equal; [apply H | apply IH].
Qed.

Lemma keyTyped_anims (key : string) (g : GameManager.t) :
  map Cow.anim (GameManager._cows (GameManager.keyTyped key g))
  = map Cow.anim (GameManager._cows g).
Proof.
  unfold GameManager.keyTyped.
  destruct (String.eqb key " "); [|reflexivity].
  destruct (GameManager._followingCow g).
  - simpl. apply alter_map_fixed. reflexivity.
  - destruct (GameManager.firstIndex _ _); reflexivity.
Qed.

(** X6: [keyTyped] moves nothing.  Whatever the key, the person, the fence,
    the title, the description and every cow's sprite state (position,
    velocity, size, images, animation clock) are as before; only the
    followed-cow reference and the cows' targets can change.  A key other
    than the space bar changes nothing at all. *)
Theorem keyTyped_moves_nothing (key : string) (g : GameManager.t) :
  GameManager._person (GameManager.keyTyped key g) = GameManager._person g /\
  GameManager._fence (GameManager.keyTyped key g) = GameManager._fence g /\
  GameManager._title (GameManager.keyTyped key g) = GameManager._title g /\
  GameManager._descriptionText (GameManager.keyTyped key g)
    = GameManager._descriptionText g /\
  GameManager._descriptionFontSize (GameManager.keyTyped key g)
    = GameManager._descriptionFontSize g /\
  map Cow.anim (GameManager._cows (GameManager.keyTyped key g))
    = map Cow.anim (GameManager._cows g) /\
  (key <> " "%string -> GameManager.keyTyped key g = g).
Proof.
  destruct (keyTyped_sprites key g) as (Hp & Hf & Ht).
  destruct (keyTyped_description key g) as (Hd & Hs).
  repeat split; try assumption; [apply keyTyped_anims|].
  intros Hkey. unfold GameManager.keyTyped.
  apply String.eqb_neq in Hkey. rewrite Hkey. reflexivity.
Qed.

Lemma keyTyped_moves_nothing_witness :
  "a"%string <> " "%string /\ GameManager.keyTyped "a" (fst Examples.won) = fst Examples.won.
Proof.
  assert (H : "a"%string <> " "%string) by discriminate.
  split; [exact H|].
  exact (proj2 (proj2 (proj2 (proj2 (proj2 (proj2
           (keyTyped_moves_nothing "a" (fst Examples.won))))))) H).
Defined.

(** X7: the space bar with a cow followed releases it.  In every reachable
    world with a followed cow, after [keyTyped(' ')] no cow is followed and
    no cow has a target position: the whole herd is back in normal mode. *)
Theorem keyTyped_releases (w : World) (i : nat) :
  reachable w ->
  GameManager._followingCow (fst w) = Some i ->
  GameManager._followingCow (GameManager.keyTyped " " (fst w)) = None /\
  Forall (fun c => Cow._targetPosition c = None)
         (GameManager._cows (GameManager.keyTyped " " (fst w))).
Proof.
  intros Hw F.
  assert (F' : GameManager._followingCow (GameManager.keyTyped " " (fst w)) = None).
  { unfold GameManager.keyTyped. cbn [String.eqb Ascii.eqb Bool.eqb]. rewrite F.
    reflexivity. }
  split; [exact F'|].
  pose proof (keyTyped_herded " " _ (reachable_herded w Hw)) as Hh.
  apply Forall_forall. intros c Hc.
  apply list_elem_of_lookup in Hc as [j Hj].
  exact (herded_untargeted _ Hh F' j c Hj).
Qed.

Lemma keyTyped_releases_witness :
  reachable (run [KeyTyped " "; Tick (Examples.homeHost 30 None)] Examples.won) /\
  GameManager._followingCow
    (fst (run [KeyTyped " "; Tick (Examples.homeHost 30 None)] Examples.won)) = Some 0%nat /\
  GameManager._followingCow
    (GameManager.keyTyped " "
       (fst (run [KeyTyped " "; Tick (Examples.homeHost 30 None)] Examples.won))) = None.
Proof.
  assert (H : reachable (run [KeyTyped " "; Tick (Examples.homeHost 30 None)] Examples.won))
    by (repeat apply reachable_step; apply reachable_setup).
  assert (F : GameManager._followingCow
                (fst (run [KeyTyped " "; Tick (Examples.homeHost 30 None)] Examples.won))
              = Some 0%nat) by (vm_compute; reflexivity).
  split; [exact H|]. split; [exact F|].
  exact (proj1 (keyTyped_releases _ 0%nat H F)).
Defined.

(** X8: taking a cow along and letting it go at once is a round trip.  In
    every reachable world with no cow followed, two presses of the space
    bar in a row give back the game manager unchanged. *)
Theorem keyTyped_twice (w : World) :
  reachable w ->
  GameManager._followingCow (fst w) = None ->
  GameManager.keyTyped " " (GameManager.keyTyped " " (fst w)) = fst w.
Proof.
  intros Hw F. pose proof (reachable_herded w Hw) as Hh.
  destruct w as [g k]. simpl in *.
  unfold GameManager.keyTyped at 2. cbn [String.eqb Ascii.eqb Bool.eqb]. rewrite F.
  destruct (GameManager.firstIndex _ _) as [i|] eqn:E.
  - unfold GameManager.keyTyped. cbn [String.eqb Ascii.eqb Bool.eqb]. simpl.
    rewrite alter_fixed.
    + destruct g. simpl in *. subst. reflexivity.
    + intros c Hc. apply unsetTargetPosition_fixed.
      exact (herded_untargeted g Hh F i c Hc).
  - unfold GameManager.keyTyped. cbn [String.eqb Ascii.eqb Bool.eqb].
    rewrite F, E. reflexivity.
Qed.

Lemma keyTyped_twice_witness :
  reachable Examples.won /\
  GameManager.keyTyped " " (GameManager.keyTyped " " (fst Examples.won))
  = fst Examples.won.
Proof.
  assert (H : reachable Examples.won)
    by (repeat apply reachable_step; apply reachable_setup).
  split; [exact H|]. exact (keyTyped_twice _ H eq_refl).
Defined.

(** ** tick: the followed cow and the cast *)

(** X9: [tick] never changes which cow is followed nor how many cows there
    are, whether the frame is skipped or not. *)
Theorem tick_keeps_the_cast (h : Host) (g : GameManager.t) (k : nat) :
  GameManager._followingCow (fst (GameManager.tick h g k)) = GameManager._followingCow g /\
  length (GameManager._cows (fst (GameManager.tick h g k))) = length (GameManager._cows g).
Proof.
  unfold GameManager.tick. destruct (GameManager.skipsFrame _).
  - split; reflexivity.
  - split; [apply update_followingCow | apply update_cows_length].
Qed.

(** X10: the target follows the person one frame behind.  After a [tick]
    that is not skipped, the followed cow's target position is the position
    the person had when the tick began, before the person moved. *)
Theorem followed_cow_targets_person (h : Host) (g : GameManager.t) (k i : nat) :
  validDt (1 / frameRate h) = true ->
  GameManager._followingCow g = Some i ->
  (i < length (GameManager._cows g))%nat ->
  exists c,
    GameManager._cows (fst (GameManager.tick h g k)) !! i = Some c /\
    Cow._targetPosition c = Some (AnimatingSprite.getPosition (GameManager._person g)).
Proof.
  intros Hdt F Hi. rewrite (tick_valid _ _ _ Hdt).
  assert (Hl : (i < length (GameManager._cows
                              (fst (GameManager.update h (1 / frameRate h) g k))))%nat)
    by (rewrite update_cows_length; exact Hi).
  apply lookup_lt_is_Some_2 in Hl as [c Hc].
  exists c. split; [exact Hc|].
  apply update_cow_target in Hc as (c1 & H1 & ->).
  unfold GameManager.targetedCows in H1. rewrite F in H1.
  rewrite list_lookup_alter_eq in H1.
  destruct (GameManager._cows g !! i) as [c0|]; [|discriminate].
  injection H1 as <-. reflexivity.
Qed.

Lemma followed_cow_targets_person_witness :
  validDt (1 / frameRate (Examples.homeHost 30 (Some UP_ARROW))) = true /\
  exists c,
    GameManager._cows
      (fst (GameManager.tick (Examples.homeHost 30 (Some UP_ARROW))
              (GameManager.keyTyped " " (fst Examples.won)) (snd Examples.won)))
    !! 0%nat = Some c /\
    Cow._targetPosition c = Some (createVector 0 0).
Proof.
  split; [reflexivity|].
  exact (followed_cow_targets_person (Examples.homeHost 30 (Some UP_ARROW))
           (GameManager.keyTyped " " (fst Examples.won)) (snd Examples.won) 0%nat
           eq_refl eq_refl (Nat.lt_0_succ 2)).
Defined.

(** ** The person *)

Lemma update_person (h : Host) (dt : float) (g : GameManager.t) (k : nat) :
  GameManager._person (fst (GameManager.update h dt g k))
  = GameManager.stopPerson dt (Sprite.tick dt (GameManager._fence g)) (movedPerson h dt g).
Proof.
  rewrite update_eq. simpl. destruct (length _ =? 0)%nat; reflexivity.
Qed.

Lemma steered_velocity (h : Host) :
  In (P5Vector.mult (GameManager.controlledDirection h) Person._speed) personVelocities.
Proof.
  unfold GameManager.controlledDirection.
  destruct (keyIsDown h LEFT_ARROW); [vm_compute; tauto|].
  destruct (keyIsDown h RIGHT_ARROW); [vm_compute; tauto|].
  destruct (keyIsDown h UP_ARROW); [vm_compute; tauto|].
  destruct (keyIsDown h DOWN_ARROW); vm_compute; tauto.
Qed.

Lemma update_person_velocity (h : Host) (dt : float) (g : GameManager.t) (k : nat) :
  In (AnimatingSprite._velocity (GameManager._person (fst (GameManager.update h dt g k))))
     personVelocities.
Proof.
  rewrite update_person. unfold GameManager.stopPerson.
  destruct (Fence.isOverlapping _ _).
  - vm_compute. tauto.
  - unfold movedPerson. rewrite AnimatingSprite_tick_velocity, steeredPerson_velocity.
    apply steered_velocity.
Qed.

Lemma tick_person_velocity (h : Host) (g : GameManager.t) (k : nat) :
  In (AnimatingSprite._velocity (GameManager._person g)) personVelocities ->
  In (AnimatingSprite._velocity (GameManager._person (fst (GameManager.tick h g k))))
     personVelocities.
Proof.
  intros Hg. unfold GameManager.tick.
  destruct (GameManager.skipsFrame _); [exact Hg | apply update_person_velocity].
Qed.

Lemma reachable_person_velocity (w : World) :
  reachable w ->
  In (AnimatingSprite._velocity (GameManager._person (fst w))) personVelocities.
Proof.
  induction 1 as [h k|e w _ IH].
  - unfold GameManager.setup, bind.
    assert (H : In (AnimatingSprite._velocity
                      (GameManager._person (fst (GameManager.create h k))))
                   personVelocities).
    { unfold GameManager.create, bind, ret.
      destruct (GameManager.createCows h 3 k) as [cs k']. vm_compute. tauto. }
    destruct (GameManager.create h k) as [g k']. simpl in H.
    generalize 10%nat. intros n. revert g k' H.
    induction n as [|n IHn]; intros g k' H; simpl; [exact H|].
    unfold bind. pose proof (tick_person_velocity h g k' H) as H'.
    destruct (GameManager.tick h g k') as [g' k'']. apply IHn, H'.
  - destruct e as [h|h|key]; simpl.
    + apply tick_person_velocity, IH.
    + exact IH.
    + rewrite (proj1 (keyTyped_sprites key (fst w))). exact IH.
Qed.

(** X11: the person only ever stands still or walks along one axis at
    speed 30: in every reachable world the person's velocity is one of
    (-30, 0), (30, 0), (0, -30), (0, 30) and (0, 0). *)
Theorem person_velocity_is_cardinal (w : World) :
  reachable w ->
  In (AnimatingSprite._velocity (GameManager._person (fst w)))
     [ createVector (-30) 0; createVector 30 0; createVector 0 (-30);
       createVector 0 30; createVector 0 0 ].
Proof. apply reachable_person_velocity. Qed.

Lemma person_velocity_is_cardinal_witness :
  reachable Examples.afterLongFrame /\
  In (AnimatingSprite._velocity (GameManager._person (fst Examples.afterLongFrame)))
     [ createVector (-30) 0; createVector 30 0; createVector 0 (-30);
       createVector 0 30; createVector 0 0 ].
Proof.
  assert (H : reachable Examples.afterLongFrame)
    by (apply reachable_step, reachable_setup).
  split; [exact H|]. exact (person_velocity_is_cardinal _ H).
Defined.

(** X12: the person is never left walking inside the wall.  At the end of
    a [tick] that is not skipped, if the person's position overlaps the
    fence then the person's velocity is the zero vector. *)
Theorem person_in_wall_stands (h : Host) (g : GameManager.t) (k : nat) :
  validDt (1 / frameRate h) = true ->
  Fence.isOverlapping
    (GameManager._fence (fst (GameManager.tick h g k)))
    (AnimatingSprite.getPosition (GameManager._person (fst (GameManager.tick h g k))))
  = true ->
  AnimatingSprite._velocity (GameManager._person (fst (GameManager.tick h g k)))
  = MathHelper.VECTOR_ZERO.
Proof.
  intros Hdt. rewrite (tick_valid _ _ _ Hdt), update_fence, update_person.
  unfold GameManager.stopPerson.
  destruct (Fence.isOverlapping _ (AnimatingSprite.getPosition (movedPerson _ _ _))) eqn:E.
  - intros _. reflexivity.
  - intros H. rewrite E in H. discriminate H.
Qed.

Lemma person_in_wall_stands_witness :
  validDt (1 / frameRate (Examples.host 30 None)) = true /\
  AnimatingSprite._velocity
    (GameManager._person
       (fst (GameManager.tick (Examples.host 30 None)
               (GameManager.setPerson
                  (AnimatingSprite.setPosition (createVector (-200) 0)
                     (GameManager._person (fst Examples.start)))
                  (fst Examples.start))
               (snd Examples.start))))
  = MathHelper.VECTOR_ZERO.
Proof.
  split; [reflexivity|].
  apply person_in_wall_stands; [reflexivity|]. vm_compute. reflexivity.
Defined.

(** ** The animation: clocks and images *)










Lemma atFloorMod_In {A : Type} (arr : list A) (n : float) (a : A) :
  JS.atFloorMod arr n = Some a -> In a arr.
Proof.
  unfold JS.atFloorMod. destruct (JS.floor n) as [z|]; [|discriminate].
  destruct arr as [|a0 arr]; [discriminate|].
  destruct (_ <? 0)%Z; [discriminate|]. apply nth_error_In.
Qed.

(** X14: the image of an animating sprite.  After its tick the sprite
    displays its last image.  When both velocity components are zero the
    last image persists.  Otherwise the image, unless it is undefined,
    comes from the sequence of the direction of motion, with x taking
    priority over y: the left sequence when x is negative, the right one
    when x is positive, and only when x is zero the up sequence for a
    negative y and the down sequence for a positive y. *)
Theorem animation_image (dt : float) (a : AnimatingSprite.t) :
  let a' := AnimatingSprite.tick dt a in
  let v := AnimatingSprite._velocity a in
  Sprite._image (AnimatingSprite.sprite a') = AnimatingSprite._lastImage a' /\
  ((x v =? 0) = true -> (y v =? 0) = true ->
     AnimatingSprite._lastImage a' = AnimatingSprite._lastImage a) /\
  (forall img, AnimatingSprite._lastImage a' = Some img ->
     (Flt (x v) 0 -> In img (AnimatingSprite._imageLeftArray a)) /\
     (Flt 0 (x v) -> In img (AnimatingSprite._imageRightArray a)) /\
     ((x v =? 0) = true -> Flt (y v) 0 -> In img (AnimatingSprite._imageUpArray a)) /\
     ((x v =? 0) = true -> Flt 0 (y v) -> In img (AnimatingSprite._imageDownArray a))).
Proof.
  intros a' v. unfold a', AnimatingSprite.tick. cbn [AnimatingSprite.withSprite
    AnimatingSprite.sprite AnimatingSprite._lastImage Sprite.tick Sprite.setPosition
    Sprite.setImage Sprite._image].
  split; [reflexivity|].
  unfold AnimatingSprite._getImage, AnimatingSprite.currentImageArray, JS.gtb.
  change (AnimatingSprite._velocity (AnimatingSprite.setElapsedTime _ a)) with v.
  split.
  - intros Hx Hy.
    pose proof (eqb_not_ltb _ _ Hx) as [X1 X2].
    pose proof (eqb_not_ltb _ _ Hy) as [Y1 Y2].
    rewrite X1, X2, Y1, Y2. reflexivity.
  - intros img Himg. repeat split.
    + intros Hx. apply ltb_Flt in Hx. rewrite Hx in Himg.
      exact (atFloorMod_In _ _ _ Himg).
    + intros Hx. rewrite (Flt_not_gtb _ _ Hx) in Himg.
      apply ltb_Flt in Hx. rewrite Hx in Himg.
      exact (atFloorMod_In _ _ _ Himg).
    + intros Hx Hy. pose proof (eqb_not_ltb _ _ Hx) as [X1 X2].
      rewrite X1, X2 in Himg.
      apply ltb_Flt in Hy. rewrite Hy in Himg.
      exact (atFloorMod_In _ _ _ Himg).
    + intros Hx Hy. pose proof (eqb_not_ltb _ _ Hx) as [X1 X2].
      rewrite X1, X2, (Flt_not_gtb _ _ Hy) in Himg.
      apply ltb_Flt in Hy. rewrite Hy in Himg.
      exact (atFloorMod_In _ _ _ Himg).
Qed.

Lemma animation_image_witness :
  Flt (x (Cow._velocity Examples.leftWalker)) 0 /\
  AnimatingSprite._lastImage (AnimatingSprite.tick 1 (Cow.anim Examples.leftWalker))
  = Some (CowImage Left 0) /\
  In (CowImage Left 0) (AnimatingSprite._imageLeftArray (Cow.anim Examples.leftWalker)).
Proof.
  assert (H : Flt (x (Cow._velocity Examples.leftWalker)) 0) by reflexivity.
  assert (E : AnimatingSprite._lastImage
                (AnimatingSprite.tick 1 (Cow.anim Examples.leftWalker))
              = Some (CowImage Left 0)) by (vm_compute; reflexivity).
  split; [exact H|]. split; [exact E|].
  exact (proj1 (proj2 (proj2 (animation_image 1 (Cow.anim Examples.leftWalker)))
                  (CowImage Left 0) E) H).
Defined.

(** ** A following cow at the fence *)

(** X15: a collision response does not turn a following cow around.  For a
    cow with a target, inverting the velocity is overwritten at once by
    [_tickTarget], so the response is one more ordinary tick: the cow takes
    a second step chosen by its target, not a step back. *)
Theorem following_cow_is_not_turned (h : Host) (dt : float) (c : Cow.t)
    (target : Vector) (k : nat) :
  Cow._targetPosition c = Some target ->
  GameManager.turnAround h dt c k = Cow.tick h dt c k.
Proof.
  intros Ht. unfold GameManager.turnAround.
  rewrite (Cow_tick_following h dt c target k Ht).
  rewrite (Cow_tick_following h dt _ target k) by exact Ht.
  reflexivity.
Qed.

Lemma following_cow_is_not_turned_witness :
  Cow._targetPosition
    (Cow.setTargetPosition (createVector (-300) 0) Examples.leftWalker)
  = Some (createVector (-300) 0) /\
  Cow._velocity
    (fst (GameManager.turnAround (Examples.host 30 None) (1 / 30)
            (Cow.setTargetPosition (createVector (-300) 0) Examples.leftWalker) 0%nat))
  = createVector (-40) 0.
Proof.
  split; [reflexivity|].
  rewrite (following_cow_is_not_turned (Examples.host 30 None) (1 / 30)
             (Cow.setTargetPosition (createVector (-300) 0) Examples.leftWalker)
             (createVector (-300) 0) 0%nat eq_refl).
  reflexivity.
Defined.

(** ** A whole frame of the sketch *)

Lemma update_all_inside (h : Host) (dt : float) (g : GameManager.t) (k : nat) :
  Forall (insideFence (GameManager._fence (fst (GameManager.update h dt g k))))
         (GameManager._cows (fst (GameManager.update h dt g k))) ->
  showsSuccess (fst (GameManager.update h dt g k)).
Proof.
  rewrite update_eq. simpl.
  destruct (length _ =? 0)%nat eqn:E; simpl.
  - intros _. split; reflexivity.
  - intros H. apply cowsOutsideFence_none in H. congruence.
Qed.

Lemma update_descriptionPosition (h : Host) (dt : float) (g : GameManager.t) (k : nat) :
  GameManager._descriptionPosition (fst (GameManager.update h dt g k))
  = GameManager._descriptionPosition g.
Proof.
  rewrite update_eq. simpl. destruct (length _ =? 0)%nat; reflexivity.
Qed.

Lemma tick_descriptionPosition (h : Host) (g : GameManager.t) (k : nat) :
  GameManager._descriptionPosition (fst (GameManager.tick h g k))
  = GameManager._descriptionPosition g.
Proof.
  unfold GameManager.tick.
  destruct (GameManager.skipsFrame _); [reflexivity | apply update_descriptionPosition].
Qed.

Lemma keyTyped_descriptionPosition (key : string) (g : GameManager.t) :
  GameManager._descriptionPosition (GameManager.keyTyped key g)
  = GameManager._descriptionPosition g.
Proof.
  unfold GameManager.keyTyped.
  destruct (String.eqb key " "); [|reflexivity].
  destruct (GameManager._followingCow g); [reflexivity|].
  destruct (GameManager.firstIndex _ _); reflexivity.
Qed.

Lemma run_descriptionPosition (es : list Event) (w : World) :
  GameManager._descriptionPosition (fst (run es w))
  = GameManager._descriptionPosition (fst w).
Proof.
  revert w. induction es as [|e es IH]; intros w; simpl; [reflexivity|].
  rewrite IH. destruct e as [h|h|key]; simpl.
  - apply tick_descriptionPosition.
  - reflexivity.
  - apply keyTyped_descriptionPosition.
Qed.

Lemma setup_descriptionPosition (h : Host) (k : nat) :
  GameManager._descriptionPosition (fst (GameManager.setup h k))
  = GameManager.preloadDescriptionPosition h.
Proof.
  unfold GameManager.setup, bind.
  assert (H : GameManager._descriptionPosition (fst (GameManager.create h k))
              = GameManager.preloadDescriptionPosition h).
  { unfold GameManager.create, bind, ret.
    destruct (GameManager.createCows h 3 k) as [cs k']. reflexivity. }
  destruct (GameManager.create h k) as [g k']. simpl in H.
  generalize 10%nat. intros n. revert g k' H.
  induction n as [|n IH]; intros g k' H; simpl; [exact H|].
  unfold bind. pose proof (tick_descriptionPosition h g k') as T.
  destruct (GameManager.tick h g k') as [g' k'']. apply IH.
  simpl in T. rewrite T. exact H.
Qed.

(** X16: the frame in which the last cow comes home already shows it.  The
    [draw()] binding runs [tick] and then [draw]; when the time step is
    valid and every cow is inside the fence rectangle after the update, the
    draw calls of that same frame set the text size 24 and draw the success
    text in a box of 480 x 80.  The box is at (-250, H / 2 - 110), H being
    the height the window had when the game was loaded: the position is
    computed once, and neither the frames played since nor the size of the
    window in this frame change it. *)
Theorem frame_shows_success (h0 h : Host) (k : nat) (es : list Event) :
  let w := run es (GameManager.setup h0 k) in
  validDt (1 / frameRate h) = true ->
  Forall (insideFence (GameManager._fence (fst (fst (Sketch.draw h w)))))
         (GameManager._cows (fst (fst (Sketch.draw h w)))) ->
  In (textSize 24) (snd (Sketch.draw h w)) /\
  In (text "Yay, you've brought all the cows home!"
           (-250) (JS.orZero (windowHeight h0 / 2 - 110)) 480 80)
     (snd (Sketch.draw h w)).
Proof.
  intros w Hdt. unfold Sketch.draw. cbn [fst snd].
  rewrite (tick_valid _ _ _ Hdt). intros H.
  apply update_all_inside in H as [Ht Hs].
  unfold GameManager.draw.
  rewrite Ht, Hs, update_descriptionPosition. unfold w.
  rewrite run_descriptionPosition, setup_descriptionPosition. split.
  - right. right. right. left. reflexivity.
  - do 7 right. left. reflexivity.
Qed.

Lemma frame_shows_success_witness :
  validDt (1 / frameRate Examples.resizedHost) = true /\
  windowHeight Examples.resizedHost = 600 /\
  In (text "Yay, you've brought all the cows home!" (-250) 290 480 80)
     (snd (Sketch.draw Examples.resizedHost
             (GameManager.setup (Examples.homeHost 0 None) 0%nat))).
Proof.
  split; [reflexivity|]. split; [reflexivity|].
  refine (proj2 (frame_shows_success (Examples.homeHost 0 None) Examples.resizedHost
                   0%nat [] eq_refl _)).
  vm_compute. repeat constructor.
Defined.

(** ** setup, on every host *)

Lemma tick_invalid (h : Host) (g : GameManager.t) (k : nat) :
  validDt (1 / frameRate h) = false -> GameManager.tick h g k = (g, k).
Proof.
  intros H. unfold GameManager.tick. rewrite skipsFrame_valid, H. reflexivity.
Qed.

Lemma times_tick_invalid (h : Host) (n : nat) (g : GameManager.t) (k : nat) :
  validDt (1 / frameRate h) = false ->
  GameManager.times n (GameManager.tick h) g k = (g, k).
Proof.
  intros H. induction n as [|n IH]; simpl; [reflexivity|].
  unfold bind. rewrite (tick_invalid _ _ _ H). exact IH.
Qed.

(** X17: what [setup] leaves behind.  [create] draws six random numbers,
    x then y for each of the three cows in order, and places the cows
    there, standing, in normal mode.  When the frame rate reading gives no
    valid time step (as before the first frame), the ten warm-up calls
    change nothing and [setup] returns the game as created; when it gives
    a valid one, the warm-up is ten updates with the time step
    [1 / frameRate()]. *)
Theorem setup_on_every_host (h : Host) (k : nat) :
  let lox := - windowWidth h / 2 + 80 in
  let hix := windowWidth h / 2 - 80 in
  let loy := - windowHeight h / 2 + 80 in
  let hiy := windowHeight h / 2 - 80 in
  snd (GameManager.create h k) = (6 + k)%nat /\
  GameManager._cows (fst (GameManager.create h k))
  = [ Cow.new (createVector (random h k lox hix) (random h (1 + k) loy hiy));
      Cow.new (createVector (random h (2 + k) lox hix) (random h (3 + k) loy hiy));
      Cow.new (createVector (random h (4 + k) lox hix) (random h (5 + k) loy hiy)) ] /\
  (validDt (1 / frameRate h) = false ->
     GameManager.setup h k = GameManager.create h k) /\
  (validDt (1 / frameRate h) = true ->
     GameManager.setup h k
     = GameManager.times 10 (GameManager.update h (1 / frameRate h))
         (fst (GameManager.create h k)) (snd (GameManager.create h k))).
Proof.
  intros lox hix loy hiy. split; [reflexivity|]. split; [reflexivity|]. split.
  - intros H. unfold GameManager.setup, bind.
    destruct (GameManager.create h k) as [g k']. apply times_tick_invalid, H.
  - intros H. rewrite (setup_uses_frame_rate h k H). unfold bind.
    destruct (GameManager.create h k) as [g k']. reflexivity.
Qed.

Lemma setup_on_every_host_witness :
  validDt (1 / frameRate Examples.firstFrame) = false /\
  GameManager.setup Examples.firstFrame 0%nat = GameManager.create Examples.firstFrame 0%nat.
Proof.
  split; [reflexivity|].
  exact (proj1 (proj2 (proj2 (setup_on_every_host Examples.firstFrame 0%nat))) eq_refl).
Defined.

(** ** A cow in normal mode *)

(** X18: the random walk never turns a walking cow.  In one tick of a cow
    without target, with a time step that is finite and not zero, a cow
    that walks (velocity of positive magnitude) keeps its velocity or stops,
    and one random number is drawn; a cow that stands keeps standing, with
    one draw, or starts in the direction of a second draw at speed 20.
    Either way the cow then moves by the velocity it ends with, as
    [getVelocity] reads it, times the time step. *)
Theorem normal_cow_walk (h : Host) (dt : float) (c : Cow.t) (k : nat) :
  Cow._targetPosition c = None ->
  validDt dt = true ->
  let c' := fst (Cow.tick h dt c k) in
  let k' := snd (Cow.tick h dt c k) in
  Cow._position c'
  = P5Vector.add (Cow._position c)
      (vec (x (Cow.getVelocity c') * dt) (y (Cow.getVelocity c') * dt)) /\
  ((P5Vector.mag (Cow._velocity c) >? 0) = true ->
     k' = S k /\
     (Cow._velocity c' = Cow._velocity c \/ Cow._velocity c' = MathHelper.VECTOR_ZERO)) /\
  ((P5Vector.mag (Cow._velocity c) >? 0) = false ->
     (k' = S k /\ Cow._velocity c' = Cow._velocity c) \/
     (k' = S (S k) /\
      Cow._velocity c'
      = P5Vector.mult (directionVector (randomChoice h (S k))) Cow._normalSpeed)).
Proof.
  intros Ht Hdt c' k'. split.
  { unfold c'. rewrite Cow_tick_position.
    rewrite (mult_finite _ _ (validDt_isFinite _ Hdt)). reflexivity. }
  unfold c', k', Cow.tick, Cow._tickNormal, bind, ret, p5random, p5randomChoice.
  rewrite Ht.
  destruct (random h k 0 1 <? _); split; intros Hm; rewrite ?Hm;
    cbn [fst snd]; rewrite Cow_moved_velocity; auto.
Qed.

Lemma normal_cow_walk_witness :
  Cow._targetPosition Examples.leftWalker = None /\
  validDt (1 / 30) = true /\
  (P5Vector.mag (Cow._velocity Examples.leftWalker) >? 0) = true /\
  snd (Cow.tick (Examples.host 30 None) (1 / 30) Examples.leftWalker 0%nat) = 1%nat.
Proof.
  split; [reflexivity|]. split; [reflexivity|]. split; [reflexivity|].
  exact (proj1 (proj1 (proj2 (normal_cow_walk (Examples.host 30 None) (1 / 30)
                                Examples.leftWalker 0%nat eq_refl eq_refl))
                  eq_refl)).
Defined.
